(** * DrawerPopup: the overlay-panel controller of src/DrawerPopup.tsx

    A shallow embedding of the `DrawerPopup` function component: the pure
    computations of one render (push distance, styles, element tree), the
    keyboard handler, and the effects that run when a render is committed,
    when the transition engine reports completion, and on unmount.

    Conventions of the embedding.
    - A JavaScript `number` is an integer ([Z]): pixel distances, z-indices
      and key codes.  Fractions, infinities and NaN are outside the model.
      A safe integer is printed with its decimal digits; how a number
      beyond the safe integers is printed (rounded digits, exponent form) is
      left to the runtime.
    - An optional property is an [option]; [None] is `undefined`.
    - A call to a collaborator (a callback prop, the scroll locker, a DOM
      node, the ancestor context) is recorded in the order it is made, in an
      [Outcome]; calling something that is not a function throws.
    - The external libraries (`classnames`, the string-to-number coercion of
      the runtime, the transition engine `CSSMotion`) are not part of the
      component.  The first two are taken through the [Runtime] class, the
      third is described by its contract in [Motion]. *)

From stdpp Require Import gmap strings list fin_maps pretty.
From Stdlib Require Import ZArith Lia.
From Stdlib Require DecimalString.

Local Open Scope Z_scope.

(* ------------------------------------------------------------------ *)
(** ** JavaScript values *)

(** `number | string`: the type of `PushConfig.distance`, `width`, `height`
    and of the values of a style object. *)
Inductive NumberOrString :=
| Num (n : Z)
| Str (s : string).

Global Instance NumberOrString_eq_dec : EqDecision NumberOrString.
Proof. solve_decision. Defined.

(** `CSSProperties`: a style object, property name to value. *)
Abbreviation CSSProperties := (gmap string NumberOrString).

(** Truthiness of an optional boolean: `undefined` and `false` are falsy. *)
Definition truthy (b : option bool) : bool := default false b.

(** Truthiness of a number or string: `0` and the empty string are falsy. *)
Definition truthy_value (v : NumberOrString) : bool :=
  match v with
  | Num n => negb (n =? 0)
  | Str s => negb (String.eqb s "")
  end.

(** `a ?? b`: the left operand unless it is `undefined`. *)
Definition nullish {A} (a : option A) (b : A) : A := default b a.

(** Object spread `{...a, ...b}`: the properties of [b] win. *)
Definition spread (a b : CSSProperties) : CSSProperties := b ∪ a.

(** An optional style object spread into a literal: `...undefined` adds
    nothing. *)
Definition style_of (s : option CSSProperties) : CSSProperties := default ∅ s.

(** An argument of `classNames(...)`: a class name that may be absent, a
    style-typed object (`maskClassName` is declared as `CSSProperties`), or
    an object literal with one computed key. *)
Inductive ClassValue :=
| ClsName (name : option string)
| ClsObject (o : option CSSProperties)
| ClsFlag (name : string) (on : option bool).

(** What the component takes from its runtime and from `classnames`:
    - [classNames]: the class string built from the arguments;
    - [negated]: the text `${-s}` of a string [s], that is the runtime's
      coercion of [s] to a number, negated and printed;
    - [large_number_text]: the text of a number beyond the safe integers,
      which the runtime prints with rounded digits, and in exponent form
      from 10^21 on. *)
Class Runtime := {
  classNames : list ClassValue → string;
  negated : string → string;
  large_number_text : Z → string;
}.

(** `Number.MAX_SAFE_INTEGER`, 2^53 - 1. *)
Definition MAX_SAFE_INTEGER : Z := 9007199254740991.

(** The text of a number: the decimal digits of a safe integer, with its
    sign; the runtime's text beyond. *)
Definition number_text {runtime : Runtime} (n : Z) : string :=
  if Z.abs n <=? MAX_SAFE_INTEGER then pretty n else large_number_text n.

(** `${v}` in a template literal. *)
Definition template {runtime : Runtime} (v : NumberOrString) : string :=
  match v with
  | Num n => number_text n
  | Str s => s
  end.

(** `${-v}` in a template literal. *)
Definition template_neg {runtime : Runtime} (v : NumberOrString) : string :=
  match v with
  | Num n => number_text (- n)
  | Str s => negated s
  end.

(** Handles name the functions and objects handed in from outside: the
    `onClose` and `afterOpenChange` callbacks, a `ScrollLocker`. *)
Definition Handle := nat.

(** DOM nodes, by identity. *)
Definition Element := nat.

(** Overlay instances, by identity. *)
Definition InstanceId := nat.

(** The value of `ref.current` or of `document.activeElement`. *)
Inductive RefValue :=
| RefUndefined
| RefNull
| RefNode (el : Element).

Global Instance RefValue_eq_dec : EqDecision RefValue.
Proof. solve_decision. Defined.

(** `a === b` on such values. *)
Definition strict_eq (a b : RefValue) : bool := bool_decide (a = b).

(** `rc-util/lib/KeyCode`. *)
Module KeyCode.
Definition TAB : Z := 9.
Definition ESC : Z := 27.
End KeyCode.

Record KeyboardEvent := {
  keyCode : Z;
  shiftKey : bool;
}.

(* ------------------------------------------------------------------ *)
(** ** Types of the component *)

Module Placement.
(** `'left' | 'right' | 'top' | 'bottom'` *)
Inductive t := left | right | top | bottom.
End Placement.

Record PushConfig := {
  distance : option NumberOrString;
}.

(** `push?: boolean | PushConfig` *)
Inductive PushProp :=
| PushUndefined
| PushBool (b : bool)
| PushObject (c : PushConfig).

(** A function of no argument held by a stacking context.  The contexts the
    component itself provides hold `() => setPushed(v)` of the providing
    instance; [Foreign] stands for any other function. *)
Inductive Thunk :=
| SetPushed (owner : InstanceId) (v : bool)
| Foreign (f : Handle).

(** `DrawerContextProps` of ./context, as the component uses it: every
    member is read through `?.`. *)
Module Context.
Record DrawerContextProps := {
  pushDistance : option NumberOrString;
  push : option Thunk;
  pull : option Thunk;
}.
End Context.
Abbreviation DrawerContextProps := Context.DrawerContextProps.

(** The handler a `CSSMotion` element is given for `onVisibleChanged`: the
    component's own closure, or a function of the caller. *)
Inductive VisibleChangedHandler :=
| OwnVisibleChanged
| CallerVisibleChanged (f : Handle).

(** `CSSMotionProps` of rc-motion, with the properties the component names. *)
Module Motion.
Record CSSMotionProps := {
  motionName : option string;
  visible : option bool;
  forceRender : option bool;
  removeOnLeave : option bool;
  leavedClassName : option string;
  onVisibleChanged : option VisibleChangedHandler;
}.

(** `{}` *)
Definition empty : CSSMotionProps :=
  {| motionName := None; visible := None; forceRender := None;
     removeOnLeave := None; leavedClassName := None;
     onVisibleChanged := None |}.

(** What the engine passes to the render function of its child. *)
Record Arg := {
  className : option string;
  style : option CSSProperties;
}.

(** The presentation of an element whose leave transition is complete. *)
Inductive Hidden :=
| Removed
| Retained (marker : option string).

(** Modelled from the spec: the transition engine (rc-motion's `CSSMotion`)
    is an external collaborator.  Its contract: the element is removed
    when hidden, unless `forceRender` keeps it mounted, or
    `removeOnLeave=false` retains it and applies the "leaved" marker class
    instead of removing it. *)
Definition hidden (m : CSSMotionProps) : Hidden :=
  match removeOnLeave m with
  | Some false => Retained (leavedClassName m)
  | _ => if default false (forceRender m) then Retained None else Removed
  end.

(** What the engine passes to the child of an element whose leave
    transition is complete; [None] when the element is removed. *)
Definition leaved (m : CSSMotionProps) : option Arg :=
  match hidden m with
  | Removed => None
  | Retained marker => Some {| className := marker; style := None |}
  end.
End Motion.
Abbreviation CSSMotionProps := Motion.CSSMotionProps.

(** `motion?: CSSMotionProps | ((placement: Placement) => CSSMotionProps)` *)
Inductive MotionProp :=
| MotionObject (m : CSSMotionProps)
| MotionFunction (f : option Placement.t → CSSMotionProps).

(** The refs of one instance. *)
Inductive RefName := panelRef | sentinelStartRef | sentinelEndRef | motionRef.

(** The handler bound to an event property of a `div`. *)
Inductive EventHandler :=
| OnPanelKeyDown
| CallerOnClose (f : Handle).

Record DivProps := {
  div_className : option string;
  div_style : option CSSProperties;
  div_tabIndex : option Z;
  div_ref : option RefName;
  div_onKeyDown : option EventHandler;
  div_onClick : option EventHandler;
  div_ariaHidden : option string;
  div_dataSentinel : option string;
}.

Record DrawerPanelProps := {
  panel_containerRef : RefName;
  panel_prefixCls : string;
  panel_className : string;
  panel_style : CSSProperties;
  panel_width : option NumberOrString;
  panel_height : option NumberOrString;
  panel_placement : option Placement.t;
}.

(** Elements, as the component creates them. *)
#[warnings="-register-all"]
Inductive ReactNode :=
| Nothing
| Text (s : string)
| Div (props : DivProps) (children : list ReactNode)
| CSSMotion (key : string) (props : CSSMotionProps)
            (children : Motion.Arg → ReactNode)
| DrawerPanel (props : DrawerPanelProps) (children : ReactNode)
| Provider (value : DrawerContextProps) (child : ReactNode).

Record DrawerPopupProps := {
  prefixCls : string;
  open : option bool;
  inline : option bool;
  push : PushProp;
  forceRender : option bool;
  autoFocus : option bool;
  keyboard : option bool;
  (* MISC *)
  scrollLocker : option Handle;
  (* Root *)
  rootClassName : option string;
  rootStyle : option CSSProperties;
  zIndex : option Z;
  (* Drawer *)
  placement : option Placement.t;
  className : option string;
  style : option CSSProperties;
  children : ReactNode;
  width : option NumberOrString;
  height : option NumberOrString;
  contentWrapperStyle : option CSSProperties;
  (* Mask *)
  mask : option bool;
  maskClosable : option bool;
  maskClassName : option CSSProperties;
  maskStyle : option CSSProperties;
  (* Motion *)
  motion : option MotionProp;
  maskMotion : option CSSMotionProps;
  (* Events *)
  afterOpenChange : option Handle;
  onClose : option Handle;
}.

(* ------------------------------------------------------------------ *)
(** ** One render: derived values *)

Definition sentinelStyle : CSSProperties :=
  {[ "width" := Num 0; "height" := Num 0; "overflow" := Str "hidden";
     "outline" := Str "none"; "position" := Str "absolute" ]}.

(** Merge push distance: the `pushConfig` of lines 156-165. *)
Definition pushConfig (push : PushProp) : PushConfig :=
  match push with
  | PushBool false => {| distance := Some (Num 0) |}
  | PushBool true => {| distance := None |}
  | PushObject c => c
  | PushUndefined => {| distance := None |}
  end.

(** `pushConfig?.distance ?? parentContext?.pushDistance ?? 180` *)
Definition pushDistance (push : PushProp)
    (parentContext : option DrawerContextProps) : NumberOrString :=
  nullish (distance (pushConfig push))
    (nullish (parentContext ≫= Context.pushDistance) (Num 180)).

(** The context value an instance provides to its descendants. *)
Definition mergedContext (self : InstanceId) (pushDistance : NumberOrString)
    : DrawerContextProps :=
  {| Context.pushDistance := Some pushDistance;
     Context.push := Some (SetPushed self true);
     Context.pull := Some (SetPushed self false) |}.

(** `zIndexStyle`: filled under `if (zIndex)`, that is when `zIndex` is
    neither `undefined` nor 0. *)
Definition zIndexStyle (zIndex : option Z) : CSSProperties :=
  match zIndex with
  | Some z => if truthy_value (Num z) then {[ "zIndex" := Num z ]} else ∅
  | None => ∅
  end.

(** `motionProps`: a motion function is applied to the placement. *)
Definition motionProps (motion : option MotionProp)
    (placement : option Placement.t) : CSSMotionProps :=
  match motion with
  | Some (MotionFunction f) => f placement
  | Some (MotionObject m) => m
  | None => Motion.empty
  end.

Section Render.
Context {runtime : Runtime}.

(** `wrapperStyle`: the push offset of the panel wrapper. *)
Definition wrapperStyle (pushed : bool) (pushDistance : NumberOrString)
    (placement : option Placement.t) : CSSProperties :=
  if pushed && truthy_value pushDistance then
    match placement with
    | Some Placement.top =>
        {[ "transform" :=
             Str ("translateY(" +:+ template pushDistance +:+ "px)") ]}
    | Some Placement.bottom =>
        {[ "transform" :=
             Str ("translateY(" +:+ template_neg pushDistance +:+ "px)") ]}
    | Some Placement.left =>
        {[ "transform" :=
             Str ("translateX(" +:+ template pushDistance +:+ "px)") ]}
    | _ =>
        {[ "transform" :=
             Str ("translateX(" +:+ template_neg pushDistance +:+ "px)") ]}
    end
  else ∅.

(** The properties of the mask's `CSSMotion`: `{...maskMotion}` and then
    `visible={open}`. *)
Definition maskMotionProps (props : DrawerPopupProps) : CSSMotionProps :=
  let spreaded := default Motion.empty (maskMotion props) in
  {| Motion.motionName := Motion.motionName spreaded;
     Motion.visible := open props;
     Motion.forceRender := Motion.forceRender spreaded;
     Motion.removeOnLeave := Motion.removeOnLeave spreaded;
     Motion.leavedClassName := Motion.leavedClassName spreaded;
     Motion.onVisibleChanged := Motion.onVisibleChanged spreaded |}.

(** The style of the mask:
    `{...motionMaskStyle, ...maskStyle, ...zIndexStyle}` *)
Definition maskDivStyle (props : DrawerPopupProps) (arg : Motion.Arg)
    : CSSProperties :=
  spread (spread (style_of (Motion.style arg))
                 (style_of (maskStyle props)))
         (zIndexStyle (zIndex props)).

(** The properties of the `div` the mask's render function returns. *)
Definition maskDivProps (props : DrawerPopupProps) (arg : Motion.Arg)
    : DivProps :=
  {| div_className :=
       Some (classNames [ ClsName (Some (prefixCls props +:+ "-mask"));
                          ClsName (Motion.className arg);
                          ClsObject (maskClassName props) ]);
     div_style := Some (maskDivStyle props arg);
     div_tabIndex := None;
     div_ref := Some motionRef;
     div_onKeyDown := None;
     div_onClick :=
       if truthy (maskClosable props)
       then CallerOnClose <$> onClose props else None;
     div_ariaHidden := None;
     div_dataSentinel := None |}.

(** `maskNode`: `mask && <CSSMotion key="mask" ...>` *)
Definition maskNode (props : DrawerPopupProps) : ReactNode :=
  if truthy (mask props)
  then CSSMotion "mask" (maskMotionProps props)
         (λ arg, Div (maskDivProps props arg) [])
  else Nothing.

(** The properties of the panel's `CSSMotion`: `{...motionProps}` and then
    the five the component sets itself. *)
Definition panelMotionProps (props : DrawerPopupProps) : CSSMotionProps :=
  let spreaded := motionProps (motion props) (placement props) in
  {| Motion.motionName := Motion.motionName spreaded;
     Motion.visible := open props;
     Motion.forceRender := forceRender props;
     Motion.removeOnLeave := Some false;
     Motion.leavedClassName := Some (prefixCls props +:+ "-content-hidden");
     Motion.onVisibleChanged := Some OwnVisibleChanged |}.

(** The properties of the `DrawerPanel` the panel's render function
    returns. *)
Definition panelProps (props : DrawerPopupProps) (arg : Motion.Arg)
    : DrawerPanelProps :=
  {| panel_containerRef := motionRef;
     panel_prefixCls := prefixCls props;
     panel_className :=
       classNames [ ClsName (className props);
                    ClsName (Motion.className arg) ];
     panel_style :=
       spread (style_of (Motion.style arg)) (style_of (style props));
     panel_width := width props;
     panel_height := height props;
     panel_placement := placement props |}.

(** The style of the panel wrapper:
    `{...wrapperStyle, ...contentWrapperStyle, ...zIndexStyle}` *)
Definition panelWrapperStyle (props : DrawerPopupProps) (pushed : bool)
    (parentContext : option DrawerContextProps) : CSSProperties :=
  spread (spread (wrapperStyle pushed
                    (pushDistance (push props) parentContext)
                    (placement props))
                 (style_of (contentWrapperStyle props)))
         (zIndexStyle (zIndex props)).

(** The properties of the wrapper `div` around the animated panel. *)
Definition panelWrapperProps (props : DrawerPopupProps) (pushed : bool)
    (parentContext : option DrawerContextProps) : DivProps :=
  {| div_className :=
       Some (classNames
               [ ClsName (Some (prefixCls props +:+ "-content-wrapper")) ]);
     div_style := Some (panelWrapperStyle props pushed parentContext);
     div_tabIndex := None;
     div_ref := None;
     div_onKeyDown := None;
     div_onClick := None;
     div_ariaHidden := None;
     div_dataSentinel := None |}.

(** `panelNode` *)
Definition panelNode (props : DrawerPopupProps) (pushed : bool)
    (parentContext : option DrawerContextProps) : ReactNode :=
  Div (panelWrapperProps props pushed parentContext)
      [ CSSMotion "panel" (panelMotionProps props)
          (λ arg, DrawerPanel (panelProps props arg) (children props)) ].

(** The properties of a focus sentinel. *)
Definition sentinelProps (ref : RefName) (name : string) : DivProps :=
  {| div_className := None;
     div_style := Some sentinelStyle;
     div_tabIndex := Some 0;
     div_ref := Some ref;
     div_onKeyDown := None;
     div_onClick := None;
     div_ariaHidden := Some "true";
     div_dataSentinel := Some name |}.

(** The text of a placement in a template literal. *)
Definition placement_text (placement : option Placement.t) : string :=
  match placement with
  | Some Placement.left => "left"
  | Some Placement.right => "right"
  | Some Placement.top => "top"
  | Some Placement.bottom => "bottom"
  | None => "undefined"
  end.

(** The properties of the root `div`. *)
Definition rootProps (props : DrawerPopupProps) : DivProps :=
  {| div_className :=
       Some (classNames
               [ ClsName (Some (prefixCls props));
                 ClsName (Some (prefixCls props +:+ "-"
                                +:+ placement_text (placement props)));
                 ClsName (rootClassName props);
                 ClsFlag (prefixCls props +:+ "-inline") (inline props) ]);
     div_style := rootStyle props;
     div_tabIndex := Some (-1);
     div_ref := Some panelRef;
     div_onKeyDown := Some OnPanelKeyDown;
     div_onClick := None;
     div_ariaHidden := None;
     div_dataSentinel := None |}.

(** The element the component returns. *)
Definition render (self : InstanceId) (props : DrawerPopupProps)
    (pushed : bool) (parentContext : option DrawerContextProps)
    : ReactNode :=
  Provider (mergedContext self (pushDistance (push props) parentContext))
    (Div (rootProps props)
         [ maskNode props;
           Div (sentinelProps sentinelStartRef "start") [];
           panelNode props pushed parentContext;
           Div (sentinelProps sentinelEndRef "end") [] ]).

End Render.

(* ------------------------------------------------------------------ *)
(** ** From elements to the document *)

(** The nodes of the document.  A `DrawerPanel` (./DrawerPanel) stands for
    the element it renders, around its children. *)
#[warnings="-register-all"]
Inductive DomNode :=
| DomText (s : string)
| DomDiv (props : DivProps) (children : list DomNode)
| DomPanel (props : DrawerPanelProps) (children : list DomNode).

(** What the transition engine presents for a `CSSMotion` element at some
    moment: nothing, or its child rendered with some class and style. *)
Definition Engine := string → CSSMotionProps → option Motion.Arg.

(** The nodes an element puts in the document, in document order. *)
Fixpoint commit (engine : Engine) (node : ReactNode) : list DomNode :=
  match node with
  | Nothing => []
  | Text s => [DomText s]
  | Div props children => [DomDiv props (flat_map (commit engine) children)]
  | CSSMotion key props children =>
      match engine key props with
      | Some arg => commit engine (children arg)
      | None => []
      end
  | DrawerPanel props children => [DomPanel props (commit engine children)]
  | Provider _ child => commit engine child
  end.

(** The engine once every leave transition is complete. *)
Definition after_leave : Engine := λ _ m, Motion.leaved m.

(* ------------------------------------------------------------------ *)
(** ** Calls to collaborators *)

Inductive Call :=
| CallFocus (target : Element) (preventScroll : bool)
| CallOnClose (f : Handle) (event : KeyboardEvent)
| CallAfterOpenChange (f : Handle) (nextVisible : bool)
| CallLock (locker : Handle)
| CallUnLock (locker : Handle)
| CallThunk (t : Thunk).

(** The outcome of running a piece of code: the calls it made, and whether
    it returned or threw (a `TypeError`: calling what is not a function). *)
Inductive Outcome :=
| Returned (calls : list Call)
| Threw (calls : list Call).

Definition calls_of (o : Outcome) : list Call :=
  match o with
  | Returned cs => cs
  | Threw cs => cs
  end.

Definition returns (o : Outcome) : bool :=
  match o with
  | Returned _ => true
  | Threw _ => false
  end.

(** Nothing to do. *)
Definition skip : Outcome := Returned [].

(** `a; b`: [b] runs only when [a] returned. *)
Definition andThen (a b : Outcome) : Outcome :=
  match a with
  | Returned cs =>
      match b with
      | Returned cs' => Returned (cs ++ cs')
      | Threw cs' => Threw (cs ++ cs')
      end
  | Threw cs => Threw cs
  end.

Notation "a ;;; b" := (andThen a b) (at level 62, right associativity).

(** `f(args)`: throws when `f` is `undefined`. *)
Definition invoke {A} (f : option A) (call : A → Call) : Outcome :=
  match f with
  | Some a => Returned [call a]
  | None => Threw []
  end.

(** `f?.(args)`, `o?.m(args)`: nothing happens when the callee is
    `undefined`. *)
Definition invoke_opt {A} (f : option A) (call : A → Call) : Outcome :=
  match f with
  | Some a => Returned [call a]
  | None => skip
  end.

(** `ref.current?.focus({ preventScroll: true })` *)
Definition focus_opt (current : RefValue) : Outcome :=
  match current with
  | RefNode el => Returned [CallFocus el true]
  | RefNull | RefUndefined => skip
  end.

(** The current values of the three refs of an instance. *)
Record Refs := {
  panelRef_current : RefValue;
  sentinelStartRef_current : RefValue;
  sentinelEndRef_current : RefValue;
}.

(* ------------------------------------------------------------------ *)
(** ** Key handling *)

(** `onPanelKeyDown`, with `document.activeElement` as an argument. *)
Definition onPanelKeyDown (props : DrawerPopupProps) (refs : Refs)
    (activeElement : RefValue) (event : KeyboardEvent) : Outcome :=
  if keyCode event =? KeyCode.TAB then
    (* Tab active *)
    if keyCode event =? KeyCode.TAB then
      if negb (shiftKey event)
         && strict_eq activeElement (sentinelEndRef_current refs)
      then focus_opt (sentinelStartRef_current refs)
      else if shiftKey event
              && strict_eq activeElement (sentinelStartRef_current refs)
      then focus_opt (sentinelEndRef_current refs)
      else skip
    else skip
  else if keyCode event =? KeyCode.ESC then
    (* Close *)
    if bool_decide (is_Some (onClose props)) && truthy (keyboard props)
    then invoke (onClose props) (λ f, CallOnClose f event)
    else skip
  else skip.

(* ------------------------------------------------------------------ *)
(** ** Effects *)

(** Auto Focus: the effect with dependencies `[open, autoFocus]`. *)
Definition autoFocusEffect (props : DrawerPopupProps) (refs : Refs)
    : Outcome :=
  if truthy (open props) && truthy (autoFocus props)
  then focus_opt (panelRef_current refs)
  else skip.

(** Tell parent to push: the effect with dependencies `[open]`. *)
Definition pushEffect (props : DrawerPopupProps)
    (parentContext : option DrawerContextProps) : Outcome :=
  if truthy (open props)
  then invoke_opt (parentContext ≫= Context.push) CallThunk
  else invoke_opt (parentContext ≫= Context.pull) CallThunk.

(** Lock window scroll: the effect with dependencies `[open, mask]`. *)
Definition lockEffect (props : DrawerPopupProps) : Outcome :=
  if truthy (open props) && truthy (mask props)
  then invoke_opt (scrollLocker props) CallLock
  else skip.

(** Clean up: the function the effect with dependencies `[]` returns.  It
    closes over the `scrollLocker` and `parentContext` of the first render. *)
Definition cleanup (scrollLocker : option Handle)
    (parentContext : option DrawerContextProps) : Outcome :=
  invoke_opt scrollLocker CallUnLock ;;;
  invoke_opt (parentContext ≫= Context.pull) CallThunk.

(** `onVisibleChanged` of the panel's `CSSMotion`. *)
Definition onVisibleChanged (props : DrawerPopupProps) (nextVisible : bool)
    : Outcome :=
  invoke_opt (afterOpenChange props) (λ f, CallAfterOpenChange f nextVisible) ;;;
  if negb nextVisible
  then invoke_opt (scrollLocker props) CallUnLock
  else skip.

(* ------------------------------------------------------------------ *)
(** ** The life of one instance *)

(** What an instance keeps between renders: its `pushed` state, the props of
    the last committed render (the effect dependencies are compared with
    them, and the handlers in the tree close over them), and what the
    clean-up function captured at the first render. *)
Record Instance := {
  pushed : bool;
  committed : DrawerPopupProps;
  first_scrollLocker : option Handle;
  first_parentContext : option DrawerContextProps;
}.

(** Whether a dependency array differs from the one of the last render. *)
Definition changed (before after : list (option bool)) : bool :=
  bool_decide (before ≠ after).

(** The effects of the first commit, in the order of their declaration. *)
Definition mountEffects (props : DrawerPopupProps)
    (parentContext : option DrawerContextProps) (refs : Refs) : Outcome :=
  autoFocusEffect props refs ;;;
  pushEffect props parentContext ;;;
  lockEffect props.

(** The effects of a later commit: those whose dependencies changed. *)
Definition updateEffects (prev props : DrawerPopupProps)
    (parentContext : option DrawerContextProps) (refs : Refs) : Outcome :=
  (if changed [open prev; autoFocus prev] [open props; autoFocus props]
   then autoFocusEffect props refs else skip) ;;;
  (if changed [open prev] [open props]
   then pushEffect props parentContext else skip) ;;;
  (if changed [open prev; mask prev] [open props; mask props]
   then lockEffect props else skip).

Definition mounted (props : DrawerPopupProps)
    (parentContext : option DrawerContextProps) : Instance :=
  {| pushed := false;
     committed := props;
     first_scrollLocker := scrollLocker props;
     first_parentContext := parentContext |}.

Definition updated (inst : Instance) (props : DrawerPopupProps) : Instance :=
  {| pushed := pushed inst;
     committed := props;
     first_scrollLocker := first_scrollLocker inst;
     first_parentContext := first_parentContext inst |}.

(** `setPushed(v)` *)
Definition setPushed (v : bool) (inst : Instance) : Instance :=
  {| pushed := v;
     committed := committed inst;
     first_scrollLocker := first_scrollLocker inst;
     first_parentContext := first_parentContext inst |}.

(** What happens to an instance. *)
Inductive Lifecycle :=
| Commit (props : DrawerPopupProps)
         (parentContext : option DrawerContextProps)
| VisibleChanged (nextVisible : bool)
| KeyDown (activeElement : RefValue) (event : KeyboardEvent)
| Unmount.

(** One step of an instance ([None]: not mounted). *)
Definition step (refs : Refs) (inst : option Instance) (ev : Lifecycle)
    : Outcome * option Instance :=
  match inst, ev with
  | None, Commit props parentContext =>
      (mountEffects props parentContext refs,
       Some (mounted props parentContext))
  | Some i, Commit props parentContext =>
      (updateEffects (committed i) props parentContext refs,
       Some (updated i props))
  | Some i, VisibleChanged nextVisible =>
      (onVisibleChanged (committed i) nextVisible, Some i)
  | Some i, KeyDown activeElement event =>
      (onPanelKeyDown (committed i) refs activeElement event, Some i)
  | Some i, Unmount =>
      (cleanup (first_scrollLocker i) (first_parentContext i), None)
  | None, _ => (skip, None)
  end.

(** A sequence of steps; it stops at the first that throws. *)
Fixpoint run (refs : Refs) (inst : option Instance) (evs : list Lifecycle)
    : Outcome :=
  match evs with
  | [] => skip
  | ev :: evs' =>
      let '(o, inst') := step refs inst ev in
      match o with
      | Returned _ => o ;;; run refs inst' evs'
      | Threw _ => o
      end
  end.

(* ------------------------------------------------------------------ *)
(** ** Nested instances *)

(** Delivery of a call to the instances of a page: `setPushed(v)` reaches the
    state cell of its owner; every other call leaves the instances alone. *)
Definition deliver (page : gmap InstanceId Instance) (c : Call)
    : gmap InstanceId Instance :=
  match c with
  | CallThunk (SetPushed owner v) => alter (setPushed v) owner page
  | _ => page
  end.

Definition deliver_all (page : gmap InstanceId Instance) (cs : list Call)
    : gmap InstanceId Instance :=
  foldl deliver page cs.

(* ------------------------------------------------------------------ *)
(** ** Properties of call sequences *)

Definition is_lock (c : Call) : bool :=
  match c with CallLock _ => true | _ => false end.

Definition is_unlock (c : Call) : bool :=
  match c with CallUnLock _ => true | _ => false end.

Definition is_close (c : Call) : bool :=
  match c with CallOnClose _ _ => true | _ => false end.

Definition is_focus (c : Call) : bool :=
  match c with CallFocus _ _ => true | _ => false end.

Definition is_thunk (c : Call) : bool :=
  match c with CallThunk _ => true | _ => false end.

(** The calls of a kind in a sequence, in order. *)
Definition only (kind : Call → bool) (cs : list Call) : list Call :=
  filter (λ c, kind c = true) cs.

(** How many calls of a kind a sequence holds. *)
Definition count (kind : Call → bool) (cs : list Call) : nat :=
  length (only kind cs).

(** 1 when an optional collaborator is supplied, 0 when it is not. *)
Definition supplied {A} (o : option A) : nat :=
  if o is Some _ then 1%nat else 0%nat.

(** No `lock()` follows a `lock()` without an `unLock()` in between.
    [locked] tells whether a `lock()` is pending. *)
Fixpoint lock_discipline (locked : bool) (cs : list Call) : bool :=
  match cs with
  | [] => true
  | CallLock _ :: cs' => negb locked && lock_discipline true cs'
  | CallUnLock _ :: cs' => lock_discipline false cs'
  | _ :: cs' => lock_discipline locked cs'
  end.

(* ------------------------------------------------------------------ *)
(** ** Concrete inputs *)

(** The tokens `classnames` keeps of one argument. *)
Definition class_tokens (v : ClassValue) : list string :=
  match v with
  | ClsName (Some s) => if String.eqb s "" then [] else [s]
  | ClsName None => []
  | ClsObject (Some o) =>
      (filter (λ kv, truthy_value kv.2 = true) (map_to_list o)).*1
  | ClsObject None => []
  | ClsFlag name on => if truthy on then [name] else []
  end.

(** A runtime to evaluate examples with: class names joined by spaces, and
    `${-s}` for a string of decimal digits.  The examples stay within the
    safe integers; beyond them this runtime has no digits to offer. *)
Definition sample_runtime : Runtime :=
  {| classNames := λ vs, String.concat " " (vs ≫= class_tokens);
     negated := λ s,
       match DecimalString.NilZero.int_of_string s with
       | Some i => pretty (- Z.of_int i)
       | None => "NaN"
       end;
     large_number_text := λ _, "?" |}.

(** Props with every optional member left out. *)
Definition bare : DrawerPopupProps :=
  {| prefixCls := "rc-drawer"; open := None; inline := None;
     push := PushUndefined; forceRender := None; autoFocus := None;
     keyboard := None; scrollLocker := None; rootClassName := None;
     rootStyle := None; zIndex := None; placement := None;
     className := None; style := None; children := Nothing;
     width := None; height := None; contentWrapperStyle := None;
     mask := None; maskClosable := None; maskClassName := None;
     maskStyle := None; motion := None; maskMotion := None;
     afterOpenChange := None; onClose := None |}.

(** The props [p] with another `zIndex`. *)
Definition with_zIndex (z : option Z) (p : DrawerPopupProps)
    : DrawerPopupProps :=
  {| prefixCls := prefixCls p; open := open p; inline := inline p;
     push := push p; forceRender := forceRender p; autoFocus := autoFocus p;
     keyboard := keyboard p; scrollLocker := scrollLocker p;
     rootClassName := rootClassName p; rootStyle := rootStyle p;
     zIndex := z; placement := placement p; className := className p;
     style := style p; children := children p; width := width p;
     height := height p; contentWrapperStyle := contentWrapperStyle p;
     mask := mask p; maskClosable := maskClosable p;
     maskClassName := maskClassName p; maskStyle := maskStyle p;
     motion := motion p; maskMotion := maskMotion p;
     afterOpenChange := afterOpenChange p; onClose := onClose p |}.

(** The props [p] with other `open` and `mask`. *)
Definition with_open_mask (o m : option bool) (p : DrawerPopupProps)
    : DrawerPopupProps :=
  {| prefixCls := prefixCls p; open := o; inline := inline p;
     push := push p; forceRender := forceRender p; autoFocus := autoFocus p;
     keyboard := keyboard p; scrollLocker := scrollLocker p;
     rootClassName := rootClassName p; rootStyle := rootStyle p;
     zIndex := zIndex p; placement := placement p; className := className p;
     style := style p; children := children p; width := width p;
     height := height p; contentWrapperStyle := contentWrapperStyle p;
     mask := m; maskClosable := maskClosable p;
     maskClassName := maskClassName p; maskStyle := maskStyle p;
     motion := motion p; maskMotion := maskMotion p;
     afterOpenChange := afterOpenChange p; onClose := onClose p |}.

(** The props [p] with other collaborators: keyboard closing, the close
    callback, the completion callback and the scroll locker. *)
Definition with_collaborators (kb : option bool)
    (close after locker : option Handle) (p : DrawerPopupProps)
    : DrawerPopupProps :=
  {| prefixCls := prefixCls p; open := open p; inline := inline p;
     push := push p; forceRender := forceRender p; autoFocus := autoFocus p;
     keyboard := kb; scrollLocker := locker;
     rootClassName := rootClassName p; rootStyle := rootStyle p;
     zIndex := zIndex p; placement := placement p; className := className p;
     style := style p; children := children p; width := width p;
     height := height p; contentWrapperStyle := contentWrapperStyle p;
     mask := mask p; maskClosable := maskClosable p;
     maskClassName := maskClassName p; maskStyle := maskStyle p;
     motion := motion p; maskMotion := maskMotion p;
     afterOpenChange := after; onClose := close |}.

(** The props [p] with another `maskMotion`. *)
Definition with_maskMotion (m : option CSSMotionProps) (p : DrawerPopupProps)
    : DrawerPopupProps :=
  {| prefixCls := prefixCls p; open := open p; inline := inline p;
     push := push p; forceRender := forceRender p; autoFocus := autoFocus p;
     keyboard := keyboard p; scrollLocker := scrollLocker p;
     rootClassName := rootClassName p; rootStyle := rootStyle p;
     zIndex := zIndex p; placement := placement p; className := className p;
     style := style p; children := children p; width := width p;
     height := height p; contentWrapperStyle := contentWrapperStyle p;
     mask := mask p; maskClosable := maskClosable p;
     maskClassName := maskClassName p; maskStyle := maskStyle p;
     motion := motion p; maskMotion := m;
     afterOpenChange := afterOpenChange p; onClose := onClose p |}.

(** Refs of a mounted instance: the root, the start and the end sentinel. *)
Definition refs_of (root s e : Element) : Refs :=
  {| panelRef_current := RefNode root;
     sentinelStartRef_current := RefNode s;
     sentinelEndRef_current := RefNode e |}.

(* ------------------------------------------------------------------ *)
(** ** Runs, nesting and the document *)

(** The instance a sequence of steps leaves. *)
Definition after (refs : Refs) (inst : option Instance)
    (evs : list Lifecycle) : option Instance :=
  foldl (λ i ev, (step refs i ev).2) inst evs.

(** Whether the last of the `lock()` and `unLock()` calls of a sequence is a
    `lock()`; [pending] is the answer for the calls made before. *)
Fixpoint lock_pending (pending : bool) (cs : list Call) : bool :=
  match cs with
  | [] => pending
  | CallLock _ :: cs' => lock_pending true cs'
  | CallUnLock _ :: cs' => lock_pending false cs'
  | _ :: cs' => lock_pending pending cs'
  end.

(** The context that reaches the inside of a nest of overlays, outermost
    first: each one reads the context of the one around it with
    `useContext` and provides its own `mergedContext`. *)
Definition nest (outer : option DrawerContextProps)
    (overlays : list (InstanceId * PushProp)) : option DrawerContextProps :=
  foldl (λ ctx o, Some (mergedContext o.1 (pushDistance o.2 ctx)))
        outer overlays.

(** The first distance that a list of `push` props sets itself. *)
Fixpoint nearest_distance (pushes : list PushProp) : option NumberOrString :=
  match pushes with
  | [] => None
  | p :: ps =>
      match distance (pushConfig p) with
      | Some d => Some d
      | None => nearest_distance ps
      end
  end.

(** The value of the `DrawerContext.Provider` at the root of an element. *)
Definition provided (node : ReactNode) : option DrawerContextProps :=
  match node with
  | Provider value _ => Some value
  | _ => None
  end.

(** The `onClick` handlers of the `div`s of a document node, in document
    order. *)
Fixpoint dom_clicks (node : DomNode) : list EventHandler :=
  match node with
  | DomText _ => []
  | DomDiv props children =>
      option_list (div_onClick props) ++ flat_map dom_clicks children
  | DomPanel _ children => flat_map dom_clicks children
  end.

(** The `onKeyDown` handlers of the `div`s of a document node. *)
Fixpoint dom_keys (node : DomNode) : list EventHandler :=
  match node with
  | DomText _ => []
  | DomDiv props children =>
      option_list (div_onKeyDown props) ++ flat_map dom_keys children
  | DomPanel _ children => flat_map dom_keys children
  end.

Definition is_afterOpenChange (c : Call) : bool :=
  match c with CallAfterOpenChange _ _ => true | _ => false end.

(** The completion reports among the steps of a history, in order. *)
Definition reports (evs : list Lifecycle) : list bool :=
  omap (λ ev, match ev with VisibleChanged b => Some b | _ => None end) evs.

(** Whether the last of the `setPushed` calls of a sequence set `true`;
    [pushed] is the answer for the calls made before. *)
Fixpoint last_push (pushed : bool) (cs : list Call) : bool :=
  match cs with
  | [] => pushed
  | CallThunk (SetPushed _ v) :: cs' => last_push v cs'
  | _ :: cs' => last_push pushed cs'
  end.

(** No `setPushed(true)` follows a `setPushed(true)` without a
    `setPushed(false)` in between. *)
Fixpoint push_discipline (pushed : bool) (cs : list Call) : bool :=
  match cs with
  | [] => true
  | CallThunk (SetPushed _ true) :: cs' =>
      negb pushed && push_discipline true cs'
  | CallThunk (SetPushed _ false) :: cs' => push_discipline false cs'
  | _ :: cs' => push_discipline pushed cs'
  end.

(* ================================================================== *)
(** * Push distance *)

(** C1: `pushDistance` resolves by precedence.  A numeric distance in the
    overlay's own `push` config wins, whatever the ancestor supplies
    (`push=false` is the distance 0); without an own distance (`push` left
    out, `true`, or an object without `distance`) the ancestor context's
    `pushDistance` is taken; without that (no ancestor, or an ancestor that
    supplies none) the default 180.  The four examples of the spec are the
    last four conjuncts. *)
Theorem pushDistance_precedence
    (parentContext : option DrawerContextProps)
    (n : Z) (inherited : NumberOrString) (psh pll : option Thunk) :
  let ancestor :=
    Some {| Context.pushDistance := Some inherited;
            Context.push := psh; Context.pull := pll |} in
  let silent :=
    Some {| Context.pushDistance := None;
            Context.push := psh; Context.pull := pll |} in
  (* (1) the own numeric distance *)
  pushDistance (PushObject {| distance := Some (Num n) |}) parentContext
    = Num n
  ∧ pushDistance (PushBool false) parentContext = Num 0
  (* (2) the ancestor's *)
  ∧ pushDistance PushUndefined ancestor = inherited
  ∧ pushDistance (PushBool true) ancestor = inherited
  ∧ pushDistance (PushObject {| distance := None |}) ancestor = inherited
  (* (3) the default *)
  ∧ pushDistance PushUndefined silent = Num 180
  ∧ pushDistance (PushBool true) silent = Num 180
  ∧ pushDistance (PushObject {| distance := None |}) silent = Num 180
  ∧ pushDistance (PushBool true) None = Num 180
  ∧ pushDistance (PushObject {| distance := None |}) None = Num 180
  (* the examples *)
  ∧ pushDistance (PushBool false) parentContext = Num 0
  ∧ pushDistance (PushObject {| distance := Some (Num 40) |}) parentContext
    = Num 40
  ∧ pushDistance (PushBool true)
      (Some {| Context.pushDistance := Some (Num 120);
               Context.push := psh; Context.pull := pll |}) = Num 120
  ∧ pushDistance PushUndefined None = Num 180.
Proof.
  cbv zeta. repeat split; reflexivity.
Qed.

(** C8, as the claim states it, fails: a distance that is a non-numeric
    string is not replaced by the default. *)
Lemma pushDistance_malformed_not_default :
  pushDistance (PushObject {| distance := Some (Str "wide") |}) None
    ≠ Num 180.
Proof. discriminate. Qed.

(** C8, amended: a distance that is present but is a string, numeric or not,
    is the push distance as it stands: neither the default nor the
    ancestor's value replaces it, and the resolution cannot fail. *)
Theorem pushDistance_string_kept
    (s : string) (parentContext : option DrawerContextProps) :
  pushDistance (PushObject {| distance := Some (Str s) |}) parentContext
    = Str s.
Proof. reflexivity. Qed.

(* ================================================================== *)
(** * Styles *)

Lemma wrapperStyle_only_transform {runtime : Runtime} pushed d placement (k : string) :
  k ≠ "transform" → wrapperStyle pushed d placement !! k = None.
Proof.
  intros Hk. unfold wrapperStyle.
  destruct (pushed && truthy_value d); [|apply lookup_empty].
  destruct placement as [[]|]; by apply lookup_singleton_ne.
Qed.

Lemma zIndexStyle_only_zIndex zIndex (k : string) :
  k ≠ "zIndex" → zIndexStyle zIndex !! k = None.
Proof.
  intros Hk. unfold zIndexStyle.
  destruct zIndex as [z|]; [|apply lookup_empty].
  destruct (truthy_value (Num z)); [|apply lookup_empty].
  by apply lookup_singleton_ne.
Qed.

Lemma zIndexStyle_nonzero (z : Z) :
  z ≠ 0 → zIndexStyle (Some z) = {[ "zIndex" := Num z ]}.
Proof.
  intros Hz. unfold zIndexStyle, truthy_value.
  destruct (Z.eqb_spec z 0); [done|reflexivity].
Qed.

Lemma spread_lookup_last (a b : CSSProperties) (k : string) v :
  b !! k = Some v → spread a b !! k = Some v.
Proof. intros Hb. unfold spread. by apply lookup_union_Some_l. Qed.

Lemma spread_lookup_first (a b : CSSProperties) (k : string) :
  b !! k = None → spread a b !! k = a !! k.
Proof. intros Hb. unfold spread. by rewrite lookup_union_r. Qed.

Lemma spread_empty (a : CSSProperties) : spread a ∅ = a.
Proof. unfold spread. by rewrite (left_id_L ∅ (∪)). Qed.

(** The offset computed in `wrapperStyle` is the `transform` of the rendered
    wrapper unless `contentWrapperStyle` sets a `transform` of its own. *)
Lemma panelWrapperStyle_transform {runtime : Runtime} props pushed parentContext :
  style_of (contentWrapperStyle props) !! "transform" = None →
  panelWrapperStyle props pushed parentContext !! "transform"
  = wrapperStyle pushed (pushDistance (push props) parentContext)
      (placement props) !! "transform".
Proof.
  intros Hc. unfold panelWrapperStyle.
  rewrite spread_lookup_first by (by apply zIndexStyle_only_zIndex).
  by rewrite spread_lookup_first.
Qed.






(* ================================================================== *)
(** * z-index and document order *)

(** C10: a `zIndex` of exactly 0 is treated as if none were supplied.  The
    z-index style is empty, the mask style is then the motion style and
    `maskStyle` alone, the wrapper style the push offset and
    `contentWrapperStyle` alone, and the whole render is the one of the same
    props without `zIndex`. *)
Theorem zIndex_zero_as_absent {runtime : Runtime} (self : InstanceId)
    (props : DrawerPopupProps) (pushed : bool)
    (parentContext : option DrawerContextProps) (arg : Motion.Arg) :
  zIndexStyle (Some 0) = ∅
  ∧ maskDivStyle (with_zIndex (Some 0) props) arg
    = spread (style_of (Motion.style arg)) (style_of (maskStyle props))
  ∧ panelWrapperStyle (with_zIndex (Some 0) props) pushed parentContext
    = spread (wrapperStyle pushed (pushDistance (push props) parentContext)
                (placement props))
             (style_of (contentWrapperStyle props))
  ∧ render self (with_zIndex (Some 0) props) pushed parentContext
    = render self (with_zIndex None props) pushed parentContext.
Proof.
  split; [reflexivity|].
  split; [apply spread_empty|].
  split; [apply spread_empty|].
  reflexivity.
Qed.

(** C9, as the claim states it, fails: a `zIndex` that is present but 0
    reaches neither the mask nor the panel wrapper. *)
Lemma zIndex_present_not_applied :
  let props := with_open_mask (Some true) (Some true)
                 (with_zIndex (Some 0) bare) in
  let arg := {| Motion.className := None; Motion.style := None |} in
  zIndex props = Some 0
  ∧ maskDivStyle props arg !! "zIndex" = None
  ∧ panelWrapperStyle (runtime := sample_runtime) props false None !! "zIndex"
    = None.
Proof. repeat split. Qed.

(** C9, amended: every render puts the children of the root in this document
    order: the mask (only when `mask` is truthy, and when the engine presents
    it) first, then the start sentinel, then the panel wrapper around the
    animated panel, then the end sentinel; and a `zIndex` that is present and
    not 0 is the z-index of both the mask and the panel wrapper. *)
Theorem render_document_order {runtime : Runtime} (engine : Engine)
    (self : InstanceId) (props : DrawerPopupProps) (pushed : bool)
    (parentContext : option DrawerContextProps) :
  commit engine (render self props pushed parentContext)
  = [ DomDiv (rootProps props)
        ((if truthy (mask props)
          then match engine "mask" (maskMotionProps props) with
               | Some arg => [ DomDiv (maskDivProps props arg) [] ]
               | None => []
               end
          else [])
         ++ [ DomDiv (sentinelProps sentinelStartRef "start") [];
              DomDiv (panelWrapperProps props pushed parentContext)
                match engine "panel" (panelMotionProps props) with
                | Some arg =>
                    [ DomPanel (panelProps props arg)
                        (commit engine (children props)) ]
                | None => []
                end;
              DomDiv (sentinelProps sentinelEndRef "end") [] ]) ]
  ∧ ∀ z : Z, zIndex props = Some z → z ≠ 0 →
      (∀ arg, div_style (maskDivProps props arg) ≫= (.!! "zIndex")
              = Some (Num z))
      ∧ div_style (panelWrapperProps props pushed parentContext)
          ≫= (.!! "zIndex") = Some (Num z).
Proof.
  split.
  - unfold render, maskNode, panelNode. simpl.
    destruct (truthy (mask props)); simpl.
    + destruct (engine "mask" (maskMotionProps props)); simpl;
        rewrite app_nil_r;
        by destruct (engine "panel" (panelMotionProps props)).
    + rewrite app_nil_r.
      by destruct (engine "panel" (panelMotionProps props)).
  - intros z Hz Hnz. split.
    + intros arg. simpl. unfold maskDivStyle. apply spread_lookup_last.
      rewrite Hz, zIndexStyle_nonzero by done. apply lookup_singleton_eq.
    + simpl. unfold panelWrapperStyle. apply spread_lookup_last.
      rewrite Hz, zIndexStyle_nonzero by done. apply lookup_singleton_eq.
Qed.

(** A masked overlay with `zIndex` 1000, both elements presented. *)
Lemma render_document_order_witness :
  let props := with_open_mask (Some true) (Some true)
                 (with_zIndex (Some 1000) bare) in
  let shown : Engine :=
    λ _ _, Some {| Motion.className := None; Motion.style := None |} in
  (∃ m s w p e,
     commit shown (render (runtime := sample_runtime) 0%nat props false None)
     = [ DomDiv (rootProps (runtime := sample_runtime) props)
           [ DomDiv m []; DomDiv s []; DomDiv w [ DomPanel p [] ];
             DomDiv e [] ] ]
     ∧ div_dataSentinel s = Some "start"
     ∧ div_dataSentinel e = Some "end"
     ∧ div_style m ≫= (.!! "zIndex") = Some (Num 1000)
     ∧ div_style w ≫= (.!! "zIndex") = Some (Num 1000)).
Proof.
  intros props shown.
  destruct (render_document_order (runtime := sample_runtime) shown 0%nat
              props false None) as (Horder & Hz).
  destruct (Hz 1000) as (Hmask & Hwrapper); [reflexivity|lia|].
  eexists _, _, _, _, _. split; [exact Horder|].
  split; [reflexivity|]. split; [reflexivity|].
  split; [apply Hmask|apply Hwrapper].
Defined.

(* ================================================================== *)
(** * The end of the leave transition *)

(** C7, as the claim states it, fails: a mask whose `maskMotion` carries
    `removeOnLeave: false` is kept in the document when it is hidden. *)
Lemma mask_kept_on_request :
  let keep := {| Motion.motionName := Some "mask-fade";
                 Motion.visible := None;
                 Motion.forceRender := None;
                 Motion.removeOnLeave := Some false;
                 Motion.leavedClassName := None;
                 Motion.onVisibleChanged := None |} in
  let props := with_maskMotion (Some keep)
                 (with_open_mask (Some false) (Some true) bare) in
  Motion.hidden (maskMotionProps props) ≠ Motion.Removed
  ∧ ∃ root m rest,
      commit after_leave (render (runtime := sample_runtime) 0%nat props false None)
      = [ DomDiv root (DomDiv m [] :: rest) ]
      ∧ div_className m = Some "rc-drawer-mask".
Proof.
  split; [discriminate|].
  eexists _, _, _. split; reflexivity.
Qed.

(** C7, amended: when the panel's leave transition completes the panel is
    not removed, it stays in the document with the marker class
    `<prefixCls>-content-hidden`, whatever motion the caller configured; the
    mask is removed when hidden unless the caller's `maskMotion` itself asks
    the engine to keep it (`removeOnLeave: false` or `forceRender`); and on
    that completion `afterOpenChange(false)` is called and then the scroll
    lock released, each when supplied. *)
Theorem leave_completion {runtime : Runtime} (self : InstanceId)
    (props : DrawerPopupProps) (pushed : bool)
    (parentContext : option DrawerContextProps) :
  let caller := default Motion.empty (maskMotion props) in
  let marker := prefixCls props +:+ "-content-hidden" in
  let leaved := {| Motion.className := Some marker; Motion.style := None |} in
  let kept := [ DomDiv (sentinelProps sentinelStartRef "start") [];
                DomDiv (panelWrapperProps props pushed parentContext)
                  [ DomPanel (panelProps props leaved)
                      (commit after_leave (children props)) ];
                DomDiv (sentinelProps sentinelEndRef "end") [] ] in
  (* the panel *)
  Motion.hidden (panelMotionProps props) = Motion.Retained (Some marker)
  ∧ panel_className (panelProps props leaved)
    = classNames [ ClsName (className props); ClsName (Some marker) ]
  ∧ commit after_leave (render self props pushed parentContext)
    = [ DomDiv (rootProps props)
          ((if truthy (mask props)
            then match Motion.leaved (maskMotionProps props) with
                 | Some arg => [ DomDiv (maskDivProps props arg) [] ]
                 | None => []
                 end
            else []) ++ kept) ]
  (* the mask *)
  ∧ (Motion.hidden (maskMotionProps props) = Motion.Removed
     ↔ Motion.removeOnLeave caller ≠ Some false
       ∧ truthy (Motion.forceRender caller) = false)
  ∧ (Motion.removeOnLeave caller ≠ Some false →
     truthy (Motion.forceRender caller) = false →
     commit after_leave (render self props pushed parentContext)
     = [ DomDiv (rootProps props) kept ])
  (* the calls *)
  ∧ onVisibleChanged props false
    = Returned
        (option_list ((λ f, CallAfterOpenChange f false)
                        <$> afterOpenChange props)
         ++ option_list (CallUnLock <$> scrollLocker props)).
Proof.
  intros caller marker leaved kept.
  assert (Hmask : Motion.hidden (maskMotionProps props) = Motion.Removed
                  ↔ Motion.removeOnLeave caller ≠ Some false
                    ∧ truthy (Motion.forceRender caller) = false).
  { unfold Motion.hidden, maskMotionProps, truthy. simpl. fold caller.
    destruct (Motion.removeOnLeave caller) as [[]|],
      (default false (Motion.forceRender caller));
      split; try done; intros [? ?]; done. }
  assert (Hdocument :
    commit after_leave (render self props pushed parentContext)
    = [ DomDiv (rootProps props)
          ((if truthy (mask props)
            then match Motion.leaved (maskMotionProps props) with
                 | Some arg => [ DomDiv (maskDivProps props arg) [] ]
                 | None => []
                 end
            else []) ++ kept) ]).
  { unfold render, maskNode, panelNode. simpl.
    by destruct (truthy (mask props)). }
  split; [reflexivity|]. split; [reflexivity|]. split; [exact Hdocument|].
  split; [exact Hmask|]. split.
  - intros Hkeep Hforce. rewrite Hdocument.
    assert (Hgone : Motion.leaved (maskMotionProps props) = None).
    { unfold Motion.leaved.
      by rewrite (proj2 Hmask (conj Hkeep Hforce)). }
    rewrite Hgone. by destruct (truthy (mask props)).
  - unfold onVisibleChanged. simpl.
    by destruct (afterOpenChange props), (scrollLocker props).
Qed.

(** A closed overlay with a mask, a completion callback and a scroll
    locker. *)
Lemma leave_completion_witness :
  let props := with_collaborators None None (Some 4%nat) (Some 7%nat)
                 (with_open_mask (Some false) (Some true) bare) in
  Motion.hidden (panelMotionProps props)
    = Motion.Retained (Some "rc-drawer-content-hidden")
  ∧ Motion.hidden (maskMotionProps props) = Motion.Removed
  ∧ onVisibleChanged props false
    = Returned [CallAfterOpenChange 4%nat false; CallUnLock 7%nat].
Proof.
  intros props.
  destruct (leave_completion (runtime := sample_runtime) 0%nat props false
              None) as (Hpanel & _ & _ & Hmask & _ & Hcalls).
  split; [exact Hpanel|]. split; [|exact Hcalls].
  apply Hmask. split; [discriminate|reflexivity].
Defined.

(* ================================================================== *)
(** * Keys *)

(** C3: on a Tab key event, with the refs of the two sentinels set: without
    shift and with the end sentinel focused, focus is moved to the start
    sentinel, scroll suppressed; with shift and the start sentinel focused,
    focus is moved to the end sentinel; with anything else focused the
    handler makes no call at all, whether shift is held or not. *)
Theorem tab_wraps_at_sentinels (props : DrawerPopupProps)
    (root s e : Element) (other : RefValue) :
  let refs := refs_of root s e in
  let tab shift := {| keyCode := KeyCode.TAB; shiftKey := shift |} in
  other ≠ RefNode s →
  other ≠ RefNode e →
  onPanelKeyDown props refs (RefNode e) (tab false)
    = Returned [CallFocus s true]
  ∧ onPanelKeyDown props refs (RefNode s) (tab true)
    = Returned [CallFocus e true]
  ∧ (∀ shift, onPanelKeyDown props refs other (tab shift) = Returned []).
Proof.
  intros refs tab Hs He. unfold onPanelKeyDown, strict_eq. simpl.
  split; [|split].
  - by rewrite bool_decide_eq_true_2.
  - by rewrite (bool_decide_eq_true_2 (RefNode s = RefNode s)).
  - intros shift.
    rewrite (bool_decide_eq_false_2 (other = RefNode e)) by done.
    rewrite (bool_decide_eq_false_2 (other = RefNode s)) by done.
    by rewrite !andb_false_r.
Qed.

(** Sentinels 1 and 2, and a button 3 between them. *)
Lemma tab_wraps_at_sentinels_witness :
  let refs := refs_of 0%nat 1%nat 2%nat in
  let tab shift := {| keyCode := 9; shiftKey := shift |} in
  onPanelKeyDown bare refs (RefNode 2%nat) (tab false)
    = Returned [CallFocus 1%nat true]
  ∧ onPanelKeyDown bare refs (RefNode 1%nat) (tab true)
    = Returned [CallFocus 2%nat true]
  ∧ (∀ shift, onPanelKeyDown bare refs (RefNode 3%nat) (tab shift)
              = Returned []).
Proof.
  intros refs tab.
  apply (tab_wraps_at_sentinels bare 0%nat 1%nat 2%nat (RefNode 3%nat));
    discriminate.
Defined.

(** C4: on an ESC key event: with `keyboard` true the close callback is
    called exactly once, with the event itself; with `keyboard` false or
    left out it is not called; without a close callback nothing happens; and
    no key event at all makes the handler throw. *)
Theorem esc_closes (props : DrawerPopupProps) (refs : Refs)
    (activeElement : RefValue) (shift : bool) (f : Handle)
    (kb : option bool) (close after locker : option Handle)
    (event : KeyboardEvent) :
  let esc := {| keyCode := KeyCode.ESC; shiftKey := shift |} in
  let press kb close :=
    onPanelKeyDown (with_collaborators kb close after locker props)
      refs activeElement esc in
  press (Some true) (Some f) = Returned [CallOnClose f esc]
  ∧ count is_close (calls_of (press (Some true) (Some f))) = 1%nat
  ∧ press (Some false) close = Returned []
  ∧ press None close = Returned []
  ∧ press kb None = Returned []
  ∧ returns (onPanelKeyDown props refs activeElement event) = true.
Proof.
  cbv zeta. unfold onPanelKeyDown. simpl.
  repeat split; try reflexivity.
  - by rewrite andb_false_r.
  - by rewrite andb_false_r.
  - destruct (keyCode event =? KeyCode.TAB).
    + destruct (negb (shiftKey event) && _);
        [by destruct (sentinelStartRef_current refs)|].
      destruct (shiftKey event && _);
        [by destruct (sentinelEndRef_current refs)|done].
    + destruct (keyCode event =? KeyCode.ESC); [|done].
      destruct (onClose props); simpl; [|done].
      by destruct (truthy (keyboard props)).
Qed.

(* ================================================================== *)
(** * Effects: what they call *)

Lemma calls_andThen (a b : Outcome) :
  returns a = true → calls_of (a ;;; b) = calls_of a ++ calls_of b.
Proof. destruct a, b; simpl; done. Qed.

Lemma returns_andThen (a b : Outcome) :
  returns (a ;;; b) = returns a && returns b.
Proof. by destruct a, b. Qed.

Lemma returns_invoke_opt {A} (f : option A) (call : A → Call) :
  returns (invoke_opt f call) = true.
Proof. by destruct f. Qed.

Lemma returns_focus_opt (current : RefValue) :
  returns (focus_opt current) = true.
Proof. by destruct current. Qed.

Lemma returns_autoFocusEffect props refs :
  returns (autoFocusEffect props refs) = true.
Proof.
  unfold autoFocusEffect.
  destruct (_ && _); [apply returns_focus_opt|done].
Qed.

Lemma returns_pushEffect props parentContext :
  returns (pushEffect props parentContext) = true.
Proof.
  unfold pushEffect. destruct (truthy _); apply returns_invoke_opt.
Qed.

Lemma returns_lockEffect props : returns (lockEffect props) = true.
Proof.
  unfold lockEffect. destruct (_ && _); [apply returns_invoke_opt|done].
Qed.

Lemma returns_when (c : bool) (o : Outcome) :
  returns o = true → returns (if c then o else skip) = true.
Proof. by destruct c. Qed.

Create HintDb effects discriminated.
#[local] Hint Resolve returns_invoke_opt returns_focus_opt
  returns_autoFocusEffect returns_pushEffect returns_lockEffect
  returns_when : effects.

Lemma calls_mountEffects props parentContext refs :
  calls_of (mountEffects props parentContext refs)
  = calls_of (autoFocusEffect props refs)
    ++ calls_of (pushEffect props parentContext)
    ++ calls_of (lockEffect props).
Proof.
  unfold mountEffects.
  rewrite !calls_andThen; auto with effects.
Qed.

Lemma calls_updateEffects prev props parentContext refs :
  calls_of (updateEffects prev props parentContext refs)
  = (if changed [open prev; autoFocus prev] [open props; autoFocus props]
     then calls_of (autoFocusEffect props refs) else [])
    ++ (if changed [open prev] [open props]
        then calls_of (pushEffect props parentContext) else [])
    ++ (if changed [open prev; mask prev] [open props; mask props]
        then calls_of (lockEffect props) else []).
Proof.
  unfold updateEffects.
  rewrite !calls_andThen; auto with effects.
  by repeat destruct (changed _ _).
Qed.

Lemma calls_cleanup locker parentContext :
  calls_of (cleanup locker parentContext)
  = option_list (CallUnLock <$> locker)
    ++ option_list (CallThunk <$> (parentContext ≫= Context.pull)).
Proof.
  unfold cleanup. rewrite calls_andThen by auto with effects.
  by destruct locker, (parentContext ≫= Context.pull).
Qed.

Lemma calls_pushEffect props parentContext :
  calls_of (pushEffect props parentContext)
  = option_list
      (CallThunk <$> (parentContext
                      ≫= if truthy (open props)
                          then Context.push else Context.pull)).
Proof.
  unfold pushEffect.
  destruct (truthy (open props));
    by destruct (parentContext ≫= _).
Qed.

Lemma calls_lockEffect props :
  calls_of (lockEffect props)
  = if truthy (open props) && truthy (mask props)
    then option_list (CallLock <$> scrollLocker props) else [].
Proof.
  unfold lockEffect.
  destruct (_ && _); [|done]. by destruct (scrollLocker props).
Qed.

Lemma only_autoFocusEffect kind props refs :
  (∀ el b, kind (CallFocus el b) = false) →
  only kind (calls_of (autoFocusEffect props refs)) = [].
Proof.
  intros Hk. unfold autoFocusEffect.
  destruct (_ && _); [|done].
  destruct (panelRef_current refs); simpl; try done.
  unfold only. rewrite filter_cons_False; [done|].
  by rewrite Hk.
Qed.

Lemma only_option_list {A} kind (call : A → Call) (o : option A) (b : bool) :
  (∀ a, kind (call a) = b) →
  only kind (option_list (call <$> o))
  = if b then option_list (call <$> o) else [].
Proof.
  intros Hk. destruct o as [a|]; simpl; [|by destruct b].
  unfold only. specialize (Hk a). destruct b.
  - by rewrite filter_cons_True.
  - rewrite filter_cons_False; [done|]. by rewrite Hk.
Qed.

Lemma only_app kind (cs cs' : list Call) :
  only kind (cs ++ cs') = only kind cs ++ only kind cs'.
Proof. apply filter_app. Qed.

Lemma open_changed (was now : DrawerPopupProps) :
  truthy (open was) ≠ truthy (open now) →
  changed [open was] [open now] = true.
Proof.
  intros Hne. unfold changed. apply bool_decide_eq_true_2.
  intros [= Heq]. by rewrite Heq in Hne.
Qed.

(** The calls a committed render makes to contexts: one, to the context it
    was rendered under, when `open` changed; none otherwise. *)
Lemma thunks_updateEffects prev props parentContext refs :
  only is_thunk (calls_of (updateEffects prev props parentContext refs))
  = if changed [open prev] [open props]
    then calls_of (pushEffect props parentContext) else [].
Proof.
  rewrite calls_updateEffects, !only_app.
  assert (Hfocus : ∀ c : bool,
    only is_thunk (if c then calls_of (autoFocusEffect props refs) else [])
    = []).
  { intros []; [|done]. by apply only_autoFocusEffect. }
  assert (Hlock : ∀ c : bool,
    only is_thunk (if c then calls_of (lockEffect props) else []) = []).
  { intros []; [|done]. rewrite calls_lockEffect.
    destruct (_ && _); [|done]. by rewrite (only_option_list _ _ _ false). }
  rewrite Hfocus, Hlock, app_nil_r. simpl.
  destruct (changed [open prev] [open props]); [|done].
  rewrite calls_pushEffect. by rewrite (only_option_list _ _ _ true).
Qed.

Lemma thunks_mountEffects props parentContext refs :
  only is_thunk (calls_of (mountEffects props parentContext refs))
  = calls_of (pushEffect props parentContext).
Proof.
  rewrite calls_mountEffects, !only_app.
  rewrite only_autoFocusEffect by done.
  rewrite calls_lockEffect, calls_pushEffect. simpl.
  rewrite (only_option_list _ _ _ true) by done.
  destruct (_ && _); [|by rewrite app_nil_r].
  rewrite (only_option_list _ _ _ false) by done. by rewrite app_nil_r.
Qed.

Lemma thunks_cleanup locker parentContext :
  only is_thunk (calls_of (cleanup locker parentContext))
  = option_list (CallThunk <$> (parentContext ≫= Context.pull)).
Proof.
  rewrite calls_cleanup, only_app.
  rewrite (only_option_list _ _ _ false) by done.
  by rewrite (only_option_list _ _ _ true).
Qed.

(** Only calls to contexts reach the instances of the page. *)
Lemma deliver_all_thunks (cs : list Call) (page : gmap InstanceId Instance) :
  deliver_all page cs = deliver_all page (only is_thunk cs).
Proof.
  unfold deliver_all, only. revert page.
  induction cs as [|c cs IH]; intros page; [done|].
  destruct c; simpl;
    first [ apply IH
          | rewrite filter_cons_False by (simpl; discriminate); apply IH ].
Qed.

(** A render that changes no dependency makes no call: in particular the
    render of an instance whose `pushed` state was just set. *)
Lemma updateEffects_same_props props parentContext refs :
  updateEffects props props parentContext refs = Returned [].
Proof.
  unfold updateEffects, changed.
  by rewrite !bool_decide_eq_false_2 by (intros Hne; by apply Hne).
Qed.

(* ================================================================== *)
(** * Push and pull *)

(** C2: a render that takes `open` from falsy to true calls `push()` of the
    context the overlay is rendered under, and nothing else of any context;
    a render that takes it from true to falsy calls that context's `pull()`;
    so does the unmount, whatever the state, through the context of the
    first render.  Under the context its parent provides, the call sets the
    parent's `pushed` to true (and `pull()` to false) and leaves every other
    instance of the page untouched; the render of the parent that follows
    calls nothing, so no higher ancestor hears of it. *)
Theorem push_pull_direct_ancestor (refs : Refs)
    (was now : DrawerPopupProps) (inst : Instance)
    (parentContext : option DrawerContextProps)
    (parent : InstanceId) (d : NumberOrString)
    (page : gmap InstanceId Instance) :
  let nearest := Some (mergedContext parent d) in
  let opening ctx := calls_of (updateEffects was now ctx refs) in
  let closing ctx := calls_of (updateEffects now was ctx refs) in
  let leaving i := calls_of (step refs (Some i) Unmount).1 in
  truthy (open was) = false →
  truthy (open now) = true →
  (* the calls *)
  only is_thunk (opening parentContext)
    = option_list (CallThunk <$> (parentContext ≫= Context.push))
  ∧ only is_thunk (closing parentContext)
    = option_list (CallThunk <$> (parentContext ≫= Context.pull))
  ∧ only is_thunk (calls_of (mountEffects now parentContext refs))
    = option_list (CallThunk <$> (parentContext ≫= Context.push))
  ∧ only is_thunk (leaving inst)
    = option_list
        (CallThunk <$> (first_parentContext inst ≫= Context.pull))
  ∧ only is_thunk (opening nearest) = [CallThunk (SetPushed parent true)]
  ∧ only is_thunk (closing nearest) = [CallThunk (SetPushed parent false)]
  (* their effect on the instances of the page *)
  ∧ deliver_all page (opening nearest) = alter (setPushed true) parent page
  ∧ deliver_all page (closing nearest) = alter (setPushed false) parent page
  ∧ deliver_all page (leaving (mounted now nearest))
    = alter (setPushed false) parent page
  ∧ pushed <$> (deliver_all page (opening nearest) !! parent)
    = (λ _, true) <$> (page !! parent)
  ∧ pushed <$> (deliver_all page (closing nearest) !! parent)
    = (λ _, false) <$> (page !! parent)
  ∧ (∀ other, other ≠ parent →
       deliver_all page (opening nearest) !! other = page !! other
       ∧ deliver_all page (closing nearest) !! other = page !! other
       ∧ deliver_all page (leaving (mounted now nearest)) !! other
         = page !! other)
  (* the parent's own render after its state was set *)
  ∧ (∀ props ctx, updateEffects props props ctx refs = Returned []).
Proof.
  intros nearest opening closing leaving Hwas Hnow.
  assert (Hopening : ∀ ctx, only is_thunk (opening ctx)
            = option_list (CallThunk <$> (ctx ≫= Context.push))).
  { intros ctx. unfold opening.
    rewrite thunks_updateEffects, open_changed by congruence.
    by rewrite calls_pushEffect, Hnow. }
  assert (Hclosing : ∀ ctx, only is_thunk (closing ctx)
            = option_list (CallThunk <$> (ctx ≫= Context.pull))).
  { intros ctx. unfold closing.
    rewrite thunks_updateEffects, open_changed by congruence.
    by rewrite calls_pushEffect, Hwas. }
  assert (Hleaving : ∀ i, only is_thunk (leaving i)
            = option_list
                (CallThunk <$> (first_parentContext i ≫= Context.pull))).
  { intros i. unfold leaving. simpl. apply thunks_cleanup. }
  assert (Hopened : deliver_all page (opening nearest)
            = alter (setPushed true) parent page).
  { by rewrite deliver_all_thunks, Hopening. }
  assert (Hclosed : deliver_all page (closing nearest)
            = alter (setPushed false) parent page).
  { by rewrite deliver_all_thunks, Hclosing. }
  assert (Hleft : deliver_all page (leaving (mounted now nearest))
            = alter (setPushed false) parent page).
  { by rewrite deliver_all_thunks, Hleaving. }
  repeat split.
  - apply Hopening.
  - apply Hclosing.
  - by rewrite thunks_mountEffects, calls_pushEffect, Hnow.
  - apply Hleaving.
  - apply Hopening.
  - apply Hclosing.
  - exact Hopened.
  - exact Hclosed.
  - exact Hleft.
  - rewrite Hopened, lookup_alter_eq. by destruct (page !! parent).
  - rewrite Hclosed, lookup_alter_eq. by destruct (page !! parent).
  - rewrite Hopened. by apply lookup_alter_ne.
  - rewrite Hclosed. by apply lookup_alter_ne.
  - rewrite Hleft. by apply lookup_alter_ne.
  - intros props ctx. apply updateEffects_same_props.
Qed.

(** Three nested overlays 1, 2 and 3: the innermost opens, closes, and is
    unmounted while open.  Only overlay 2 is pushed and pulled. *)
Lemma push_pull_direct_ancestor_witness :
  let refs := refs_of 0%nat 1%nat 2%nat in
  let closed := with_open_mask (Some false) None bare in
  let opened := with_open_mask (Some true) None bare in
  let outer := mergedContext 1%nat (Num 180) in
  let middle := mergedContext 2%nat (Num 180) in
  let page : gmap InstanceId Instance :=
    {[ 1%nat := mounted opened None;
       2%nat := mounted opened (Some outer);
       3%nat := mounted closed (Some middle) ]} in
  let after := deliver_all page
                 (calls_of (updateEffects closed opened (Some middle) refs)) in
  pushed <$> after !! 2%nat = Some true
  ∧ after !! 1%nat = page !! 1%nat
  ∧ after !! 3%nat = page !! 3%nat
  ∧ run refs None [ Commit closed (Some middle); Commit opened (Some middle);
                    Commit closed (Some middle); Commit opened (Some middle);
                    Unmount ]
    = Returned [ CallThunk (SetPushed 2%nat false);
                 CallThunk (SetPushed 2%nat true);
                 CallThunk (SetPushed 2%nat false);
                 CallThunk (SetPushed 2%nat true);
                 CallThunk (SetPushed 2%nat false) ].
Proof.
  intros refs closed opened outer middle page after.
  destruct (push_pull_direct_ancestor refs closed opened
              (mounted opened (Some middle)) None 2%nat (Num 180) page)
    as (_ & _ & _ & _ & _ & _ & _ & _ & _ & Hpushed & _ & Hothers & _);
    [reflexivity|reflexivity|].
  split; [exact Hpushed|].
  split; [apply (Hothers 1%nat); discriminate|].
  split; [apply (Hothers 3%nat); discriminate|].
  reflexivity.
Defined.

(* ================================================================== *)
(** * Scroll lock *)

Lemma count_app kind (cs cs' : list Call) :
  count kind (cs ++ cs') = (count kind cs + count kind cs')%nat.
Proof. unfold count. by rewrite only_app, length_app. Qed.

Lemma count_option_list {A} kind (call : A → Call) (o : option A) (b : bool) :
  (∀ a, kind (call a) = b) →
  count kind (option_list (call <$> o)) = if b then supplied o else 0%nat.
Proof.
  intros Hk. unfold count. rewrite (only_option_list _ _ _ b Hk).
  destruct b; [|done]. by destruct o.
Qed.

Lemma count_autoFocusEffect kind props refs :
  (∀ el b, kind (CallFocus el b) = false) →
  count kind (calls_of (autoFocusEffect props refs)) = 0%nat.
Proof. intros Hk. unfold count. by rewrite only_autoFocusEffect. Qed.

Lemma count_pushEffect kind props parentContext :
  (∀ t, kind (CallThunk t) = false) →
  count kind (calls_of (pushEffect props parentContext)) = 0%nat.
Proof.
  intros Hk. rewrite calls_pushEffect.
  by rewrite (count_option_list _ _ _ false).
Qed.

Lemma calls_onVisibleChanged props (nextVisible : bool) :
  calls_of (onVisibleChanged props nextVisible)
  = option_list ((λ f, CallAfterOpenChange f nextVisible)
                   <$> afterOpenChange props)
    ++ (if nextVisible then []
        else option_list (CallUnLock <$> scrollLocker props)).
Proof.
  unfold onVisibleChanged. rewrite calls_andThen by auto with effects.
  destruct nextVisible; simpl;
    by destruct (afterOpenChange props), (scrollLocker props).
Qed.

Lemma count_when kind (c : bool) (cs : list Call) :
  count kind (if c then cs else []) = if c then count kind cs else 0%nat.
Proof. by destruct c. Qed.

(** C5, as the claim states it, fails: the instance calls `lock()` a second
    time with no `unLock()` in between, when `mask` is switched off and on
    again while the overlay stays open, and when the overlay is reopened
    before the engine has reported the end of the leave transition. *)
Lemma lock_twice_without_unlock :
  let refs := refs_of 0%nat 1%nat 2%nat in
  let locker := with_collaborators None None None (Some 7%nat) bare in
  let masked := with_open_mask (Some true) (Some true) locker in
  let unmasked := with_open_mask (Some true) (Some false) locker in
  let closed := with_open_mask (Some false) (Some true) locker in
  run refs None [Commit masked None; Commit unmasked None; Commit masked None]
    = Returned [CallLock 7%nat; CallLock 7%nat]
  ∧ run refs None [Commit masked None; Commit closed None; Commit masked None]
    = Returned [CallLock 7%nat; CallLock 7%nat]
  ∧ lock_discipline false [CallLock 7%nat; CallLock 7%nat] = false.
Proof. repeat split. Qed.

(** C5, amended: `lock()` is called once by the first render when `open` and
    `mask` are both true, and once by each later render at which `open` or
    `mask` changed and both are true, and by no other; `unLock()` is called
    once when the panel finishes its leave transition, not when it finishes
    entering, and once more on teardown whatever the state.  (Each when a
    scroll locker is supplied.)  The instance keeps no record of having
    locked: nothing prevents a second `lock()` before an `unLock()`. *)
Theorem scroll_lock_calls (refs : Refs) (prev props : DrawerPopupProps)
    (parentContext : option DrawerContextProps) (inst : Instance) :
  let both := truthy (open props) && truthy (mask props) in
  count is_lock (calls_of (mountEffects props parentContext refs))
    = (if both then supplied (scrollLocker props) else 0%nat)
  ∧ count is_lock (calls_of (updateEffects prev props parentContext refs))
    = (if changed [open prev; mask prev] [open props; mask props] && both
       then supplied (scrollLocker props) else 0%nat)
  ∧ count is_unlock (calls_of (mountEffects props parentContext refs)) = 0%nat
  ∧ count is_unlock (calls_of (updateEffects prev props parentContext refs))
    = 0%nat
  ∧ count is_unlock (calls_of (step refs (Some inst) (VisibleChanged false)).1)
    = supplied (scrollLocker (committed inst))
  ∧ count is_unlock (calls_of (step refs (Some inst) (VisibleChanged true)).1)
    = 0%nat
  ∧ count is_unlock (calls_of (step refs (Some inst) Unmount).1)
    = supplied (first_scrollLocker inst)
  ∧ count is_lock (calls_of (step refs (Some inst) (VisibleChanged false)).1)
    = 0%nat
  ∧ count is_lock (calls_of (step refs (Some inst) Unmount).1) = 0%nat.
Proof.
  intros both.
  assert (Hlock : ∀ kind b, (∀ l, kind (CallLock l) = b) →
            count kind (calls_of (lockEffect props))
            = if both then (if b then supplied (scrollLocker props) else 0%nat)
              else 0%nat).
  { intros kind b Hk. rewrite calls_lockEffect. fold both.
    destruct both; [|done]. by apply count_option_list. }
  repeat split.
  - rewrite calls_mountEffects, !count_app.
    rewrite count_autoFocusEffect, count_pushEffect by done.
    by rewrite (Hlock _ true).
  - rewrite calls_updateEffects, !count_app, !count_when.
    rewrite count_autoFocusEffect, count_pushEffect by done.
    rewrite (Hlock _ true) by done.
    by repeat destruct (changed _ _); destruct both.
  - rewrite calls_mountEffects, !count_app.
    rewrite count_autoFocusEffect, count_pushEffect by done.
    rewrite (Hlock _ false) by done. by destruct both.
  - rewrite calls_updateEffects, !count_app, !count_when.
    rewrite count_autoFocusEffect, count_pushEffect by done.
    rewrite (Hlock _ false) by done.
    by repeat destruct (changed _ _); destruct both.
  - simpl. rewrite calls_onVisibleChanged, count_app.
    rewrite (count_option_list _ _ _ false) by done.
    by rewrite (count_option_list _ _ _ true).
  - simpl. rewrite calls_onVisibleChanged, count_app.
    by rewrite (count_option_list _ _ _ false).
  - simpl. rewrite calls_cleanup, count_app.
    rewrite (count_option_list _ _ _ true) by done.
    by rewrite (count_option_list _ _ _ false), Nat.add_0_r.
  - simpl. rewrite calls_onVisibleChanged, count_app.
    rewrite (count_option_list _ _ _ false) by done.
    by rewrite (count_option_list _ _ _ false).
  - simpl. rewrite calls_cleanup, count_app.
    rewrite (count_option_list _ _ _ false) by done.
    by rewrite (count_option_list _ _ _ false).
Qed.

(* ================================================================== *)
(** * Nested overlays: the distance *)

Lemma nest_snoc outer overlays (o : InstanceId * PushProp) :
  nest outer (overlays ++ [o])
  = Some (mergedContext o.1 (pushDistance o.2 (nest outer overlays))).
Proof. unfold nest. by rewrite foldl_app. Qed.

Lemma pushDistance_under_overlay push self d :
  pushDistance push (Some (mergedContext self d))
  = default d (distance (pushConfig push)).
Proof. unfold pushDistance, nullish. by destruct (distance _). Qed.

(** X1: in a nest of overlays the distance of an overlay is the one set by
    the nearest overlay, itself included, whose `push` sets a distance; if
    none does, the one of the context around the nest; failing that, 180. *)
Theorem nested_distance (outer : option DrawerContextProps)
    (overlays : list (InstanceId * PushProp)) (push : PushProp) :
  pushDistance push (nest outer overlays)
  = default (default (Num 180) (outer ≫= Context.pushDistance))
            (nearest_distance (push :: reverse overlays.*2)).
Proof.
  revert push. induction overlays as [|o overlays IH] using rev_ind;
    intros push.
  - simpl. unfold pushDistance, nullish.
    by destruct (distance (pushConfig push)).
  - rewrite nest_snoc, pushDistance_under_overlay, IH.
    rewrite fmap_app, reverse_app. simpl.
    by destruct (distance (pushConfig push)).
Qed.

(** X2: `push={false}` on an overlay is inherited down the nest for as long
    as no overlay sets a distance of its own: an overlay nested in it,
    however deep and whatever surrounds the nest, that sets no distance,
    with none set by the overlays between the two either, has the distance
    0 and its wrapper is never offset. *)
Theorem push_false_silences_descendants {runtime : Runtime}
    (outer : option DrawerContextProps)
    (around inside : list (InstanceId * PushProp)) (self : InstanceId)
    (push : PushProp) :
  Forall (λ o, distance (pushConfig o.2) = None) inside →
  distance (pushConfig push) = None →
  let d := pushDistance push
             (nest outer (around ++ (self, PushBool false) :: inside)) in
  d = Num 0 ∧ ∀ pushed placement, wrapperStyle pushed d placement = ∅.
Proof.
  intros Hinside Hpush d.
  assert (Hd : d = Num 0).
  { unfold d. clear d. revert push Hpush.
    induction inside as [|o inside IH] using rev_ind; intros push Hpush.
    - rewrite (nest_snoc outer around), pushDistance_under_overlay.
      by rewrite Hpush.
    - apply Forall_app in Hinside as [Hinside Ho].
      rewrite Forall_singleton in Ho.
      rewrite app_comm_cons, app_assoc, nest_snoc.
      rewrite pushDistance_under_overlay, Hpush. simpl.
      by apply IH. }
  split; [exact Hd|]. intros pushed placement. rewrite Hd.
  unfold wrapperStyle. simpl. by rewrite andb_false_r.
Qed.

(** Outside in: 180 by default, `push={false}` on overlay 2, then two
    overlays that set nothing. *)
Lemma push_false_silences_descendants_witness :
  pushDistance PushUndefined
    (nest None [ (1%nat, PushUndefined); (2%nat, PushBool false);
                 (3%nat, PushBool true) ]) = Num 0
  ∧ wrapperStyle (runtime := sample_runtime) true
      (pushDistance PushUndefined
         (nest None [ (1%nat, PushUndefined); (2%nat, PushBool false);
                      (3%nat, PushBool true) ]))
      (Some Placement.right) = ∅.
Proof.
  destruct (push_false_silences_descendants (runtime := sample_runtime)
              None [(1%nat, PushUndefined)] [(3%nat, PushBool true)]
              2%nat PushUndefined) as [Hd Hstyle].
  - by apply Forall_singleton.
  - reflexivity.
  - split; [exact Hd|apply Hstyle].
Defined.

(* ================================================================== *)
(** * Nested overlays: the pushed state *)

Lemma alter_setPushed_twice (page : gmap InstanceId Instance) owner v w :
  alter (setPushed w) owner (alter (setPushed v) owner page)
  = alter (setPushed w) owner page.
Proof.
  apply map_eq. intros i. destruct (decide (owner = i)) as [->|Hne].
  - rewrite !lookup_alter_eq. by destruct (page !! i).
  - by rewrite !lookup_alter_ne.
Qed.

Lemma thunks_opening was now parentContext refs :
  truthy (open was) = false → truthy (open now) = true →
  only is_thunk (calls_of (updateEffects was now parentContext refs))
  = option_list (CallThunk <$> (parentContext ≫= Context.push)).
Proof.
  intros Hwas Hnow.
  rewrite thunks_updateEffects, open_changed by congruence.
  by rewrite calls_pushEffect, Hnow.
Qed.

Lemma thunks_closing was now parentContext refs :
  truthy (open was) = false → truthy (open now) = true →
  only is_thunk (calls_of (updateEffects now was parentContext refs))
  = option_list (CallThunk <$> (parentContext ≫= Context.pull)).
Proof.
  intros Hwas Hnow.
  rewrite thunks_updateEffects, open_changed by congruence.
  by rewrite calls_pushEffect, Hwas.
Qed.

Lemma deliver_all_app (page : gmap InstanceId Instance) cs cs' :
  deliver_all page (cs ++ cs') = deliver_all (deliver_all page cs) cs'.
Proof. unfold deliver_all. apply foldl_app. Qed.

(** X3: the `pushed` state of an overlay after any sequence of `push()` and
    `pull()` calls on the context it provides is decided by the last call
    alone: the calls are not counted, so repeated calls change nothing more;
    and a call for an instance that is not mounted changes nothing. *)
Theorem pushed_is_last_call (page : gmap InstanceId Instance)
    (owner : InstanceId) (d : NumberOrString) (earlier : list bool)
    (last : bool) :
  let ctx := mergedContext owner d in
  let call (v : bool) :=
    option_list (CallThunk <$> (if v then Context.push ctx
                                else Context.pull ctx)) in
  deliver_all page ((earlier ++ [last]) ≫= call)
    = alter (setPushed last) owner page
  ∧ deliver_all (delete owner page) ((earlier ++ [last]) ≫= call)
    = delete owner page.
Proof.
  intros ctx call.
  assert (Hcall : ∀ v, call v = [CallThunk (SetPushed owner v)]).
  { by intros []. }
  assert (Hlast : ∀ pg, deliver_all pg ((earlier ++ [last]) ≫= call)
                        = alter (setPushed last) owner pg).
  { induction earlier as [|v earlier IH]; intros pg.
    - simpl. by rewrite Hcall.
    - simpl. rewrite Hcall. simpl.
      change (foldl deliver ?p ?cs) with (deliver_all p cs).
      by rewrite IH, alter_setPushed_twice. }
  split; [apply Hlast|].
  rewrite Hlast. apply map_eq. intros i.
  destruct (decide (owner = i)) as [->|Hne].
  - by rewrite lookup_alter_eq, lookup_delete_eq.
  - by rewrite lookup_alter_ne.
Qed.

(** X4: the `pushed` state follows the last notification, not the number of
    open descendants.  With two overlays under one parent: when the first
    opens and the second is then mounted closed, or opened and closed again,
    the parent ends pulled although the first is still open. *)
Theorem sibling_pulls_parent (refs : Refs)
    (page : gmap InstanceId Instance) (parent : InstanceId)
    (d : NumberOrString) (was now sibling was' now' : DrawerPopupProps) :
  let ctx := Some (mergedContext parent d) in
  let first_opens := calls_of (updateEffects was now ctx refs) in
  let second_mounts := calls_of (mountEffects sibling ctx refs) in
  let second_opens := calls_of (updateEffects was' now' ctx refs) in
  let second_closes := calls_of (updateEffects now' was' ctx refs) in
  truthy (open was) = false → truthy (open now) = true →
  truthy (open sibling) = false →
  truthy (open was') = false → truthy (open now') = true →
  deliver_all page first_opens = alter (setPushed true) parent page
  ∧ deliver_all page (first_opens ++ second_mounts)
    = alter (setPushed false) parent page
  ∧ deliver_all page (first_opens ++ second_opens ++ second_closes)
    = alter (setPushed false) parent page.
Proof.
  intros ctx first_opens second_mounts second_opens second_closes
    Hwas Hnow Hsibling Hwas' Hnow'.
  assert (H1 : only is_thunk first_opens
               = [CallThunk (SetPushed parent true)]).
  { unfold first_opens. by rewrite thunks_opening. }
  assert (H2 : only is_thunk second_mounts
               = [CallThunk (SetPushed parent false)]).
  { unfold second_mounts.
    by rewrite thunks_mountEffects, calls_pushEffect, Hsibling. }
  assert (H3 : only is_thunk second_opens
               = [CallThunk (SetPushed parent true)]).
  { unfold second_opens. by rewrite thunks_opening. }
  assert (H4 : only is_thunk second_closes
               = [CallThunk (SetPushed parent false)]).
  { unfold second_closes. by rewrite thunks_closing. }
  split; [|split].
  - by rewrite deliver_all_thunks, H1.
  - rewrite deliver_all_thunks, only_app, H1, H2. simpl.
    apply alter_setPushed_twice.
  - rewrite deliver_all_thunks, !only_app, H1, H3, H4. simpl.
    by rewrite !alter_setPushed_twice.
Qed.

(** Overlay 1 holds overlays 2 and 3: 2 opens, then 3 is mounted closed. *)
Lemma sibling_pulls_parent_witness :
  let refs := refs_of 0%nat 1%nat 2%nat in
  let closed := with_open_mask (Some false) None bare in
  let opened := with_open_mask (Some true) None bare in
  let ctx := Some (mergedContext 1%nat (Num 180)) in
  let page : gmap InstanceId Instance :=
    {[ 1%nat := mounted opened None; 2%nat := mounted closed ctx ]} in
  pushed <$> deliver_all page
               (calls_of (updateEffects closed opened ctx refs)
                ++ calls_of (mountEffects closed ctx refs)) !! 1%nat
  = Some false.
Proof.
  intros refs closed opened ctx page.
  destruct (sibling_pulls_parent refs page 1%nat (Num 180)
              closed opened closed closed opened) as (_ & Hmount & _);
    [reflexivity|reflexivity|reflexivity|reflexivity|reflexivity|].
  subst ctx. rewrite Hmount. reflexivity.
Defined.

(** X5: when a nested overlay opens, its parent's wrapper is offset by the
    parent's own resolved distance, in the direction of the parent's
    placement: the props of the overlay that opens play no part.  When it
    closes again the offset is gone.  (For a parent whose
    `contentWrapperStyle` sets no transform.) *)
Theorem parent_offset_on_child_open {runtime : Runtime} (refs : Refs)
    (page : gmap InstanceId Instance) (self : InstanceId)
    (parent : Instance) (around : option DrawerContextProps)
    (was now : DrawerPopupProps) :
  let props := committed parent in
  let inner := provided (render self props (pushed parent) around) in
  let opened :=
    deliver_all page (calls_of (updateEffects was now inner refs)) in
  let closed :=
    deliver_all opened (calls_of (updateEffects now was inner refs)) in
  let wrapper_of (pg : gmap InstanceId Instance) :=
    (λ i, panelWrapperStyle (committed i) (pushed i) around !! "transform")
      <$> pg !! self in
  page !! self = Some parent →
  truthy (open was) = false →
  truthy (open now) = true →
  style_of (contentWrapperStyle props) !! "transform" = None →
  wrapper_of opened
    = Some (wrapperStyle true (pushDistance (push props) around)
              (placement props) !! "transform")
  ∧ wrapper_of closed = Some None.
Proof.
  intros props inner opened closed wrapper_of Hself Hwas Hnow Hstyle.
  assert (Hopened : opened = alter (setPushed true) self page).
  { unfold opened. by rewrite deliver_all_thunks, thunks_opening. }
  assert (Hclosed : closed = alter (setPushed false) self page).
  { unfold closed.
    rewrite deliver_all_thunks, thunks_closing by done. simpl.
    rewrite Hopened. apply alter_setPushed_twice. }
  unfold wrapper_of. split.
  - rewrite Hopened, lookup_alter_eq, Hself. simpl.
    by rewrite panelWrapperStyle_transform.
  - rewrite Hclosed, lookup_alter_eq, Hself. simpl.
    by rewrite panelWrapperStyle_transform.
Qed.

(** A parent on the right with the default distance; the overlay that opens
    inside it asks for 40. *)
Lemma parent_offset_on_child_open_witness :
  let refs := refs_of 0%nat 1%nat 2%nat in
  let parent := mounted (with_open_mask (Some true) None bare) None in
  let page : gmap InstanceId Instance := {[ 1%nat := parent ]} in
  let child (o : bool) : DrawerPopupProps :=
    {| prefixCls := "rc-drawer"; open := Some o; inline := None;
       push := PushObject {| distance := Some (Num 40) |};
       forceRender := None; autoFocus := None; keyboard := None;
       scrollLocker := None; rootClassName := None; rootStyle := None;
       zIndex := None; placement := Some Placement.left; className := None;
       style := None; children := Nothing; width := None; height := None;
       contentWrapperStyle := None; mask := None; maskClosable := None;
       maskClassName := None; maskStyle := None; motion := None;
       maskMotion := None; afterOpenChange := None; onClose := None |} in
  let inner :=
    provided (render (runtime := sample_runtime) 1%nat (committed parent)
                (pushed parent) None) in
  (λ i, panelWrapperStyle (runtime := sample_runtime) (committed i)
          (pushed i) None !! "transform")
    <$> deliver_all page
          (calls_of (updateEffects (child false) (child true) inner refs))
        !! 1%nat
  = Some (Some (Str "translateX(-180px)")).
Proof.
  intros refs parent page child inner.
  destruct (parent_offset_on_child_open (runtime := sample_runtime) refs
              page 1%nat parent None (child false) (child true))
    as [Hopened _]; [reflexivity|reflexivity|reflexivity|reflexivity|].
  etrans; [exact Hopened|reflexivity].
Defined.

(* ================================================================== *)
(** * Runs *)

Lemma returns_onPanelKeyDown props refs activeElement event :
  returns (onPanelKeyDown props refs activeElement event) = true.
Proof.
  unfold onPanelKeyDown.
  destruct (keyCode event =? KeyCode.TAB).
  - destruct (negb (shiftKey event) && _); [apply returns_focus_opt|].
    destruct (shiftKey event && _); [apply returns_focus_opt|done].
  - destruct (keyCode event =? KeyCode.ESC); [|done].
    destruct (onClose props); simpl; [|done].
    by destruct (truthy (keyboard props)).
Qed.

Lemma returns_step refs inst ev : returns (step refs inst ev).1 = true.
Proof.
  destruct inst as [i|], ev; simpl; try done.
  - unfold updateEffects. rewrite !returns_andThen.
    by rewrite !returns_when by auto with effects.
  - unfold onVisibleChanged. rewrite returns_andThen, returns_invoke_opt.
    destruct nextVisible; simpl; [done|apply returns_invoke_opt].
  - apply returns_onPanelKeyDown.
  - unfold cleanup. by rewrite returns_andThen, !returns_invoke_opt.
  - unfold mountEffects. rewrite !returns_andThen.
    by rewrite returns_autoFocusEffect, returns_pushEffect,
       returns_lockEffect.
Qed.

Lemma run_cons refs inst ev evs :
  run refs inst (ev :: evs)
  = (step refs inst ev).1 ;;; run refs (step refs inst ev).2 evs.
Proof.
  simpl. pose proof (returns_step refs inst ev) as Hr.
  destruct (step refs inst ev) as [o inst']. simpl in *.
  by destruct o.
Qed.

Lemma returns_run refs inst evs : returns (run refs inst evs) = true.
Proof.
  revert inst. induction evs as [|ev evs IH]; intros inst; [done|].
  by rewrite run_cons, returns_andThen, returns_step, IH.
Qed.

Lemma calls_run_cons refs inst ev evs :
  calls_of (run refs inst (ev :: evs))
  = calls_of (step refs inst ev).1
    ++ calls_of (run refs (step refs inst ev).2 evs).
Proof. rewrite run_cons. apply calls_andThen, returns_step. Qed.

Lemma calls_run_app refs inst evs evs' :
  calls_of (run refs inst (evs ++ evs'))
  = calls_of (run refs inst evs)
    ++ calls_of (run refs (after refs inst evs) evs').
Proof.
  revert inst. induction evs as [|ev evs IH]; intros inst; [done|].
  rewrite <- app_comm_cons, !calls_run_cons, IH. simpl.
  by rewrite app_assoc.
Qed.

(** X6: nothing the overlay goes through makes it throw: whatever props,
    contexts, refs, keys and completion reports come, in whatever order, and
    whichever collaborators are left out, every step returns. *)
Theorem run_never_throws (refs : Refs) (inst : option Instance)
    (evs : list Lifecycle) :
  returns (run refs inst evs) = true
  ∧ ∃ calls, run refs inst evs = Returned calls.
Proof.
  pose proof (returns_run refs inst evs) as Hr.
  split; [exact Hr|].
  destruct (run refs inst evs) as [cs|cs]; [by exists cs|done].
Qed.

Lemma lock_pending_app b cs cs' :
  lock_pending b (cs ++ cs') = lock_pending (lock_pending b cs) cs'.
Proof.
  revert b. induction cs as [|c cs IH]; intros b; [done|].
  destruct c; simpl; apply IH.
Qed.

Lemma lock_pending_other {A} b (call : A → Call) (o : option A) :
  (∀ a, is_lock (call a) = false) → (∀ a, is_unlock (call a) = false) →
  lock_pending b (option_list (call <$> o)) = b.
Proof.
  intros Hl Hu. destruct o as [a|]; [|done]. simpl.
  specialize (Hl a). specialize (Hu a). by destruct (call a).
Qed.

Lemma lock_pending_autoFocusEffect b props refs :
  lock_pending b (calls_of (autoFocusEffect props refs)) = b.
Proof.
  unfold autoFocusEffect. destruct (_ && _); [|done].
  by destruct (panelRef_current refs).
Qed.

Lemma lock_pending_pushEffect b props parentContext :
  lock_pending b (calls_of (pushEffect props parentContext)) = b.
Proof. rewrite calls_pushEffect. by apply lock_pending_other. Qed.

Lemma lock_pending_lockEffect b props :
  lock_pending b (calls_of (lockEffect props))
  = if truthy (open props) && truthy (mask props)
    then (if scrollLocker props is Some _ then true else b) else b.
Proof.
  rewrite calls_lockEffect. destruct (_ && _); [|done].
  by destruct (scrollLocker props).
Qed.

Lemma lock_pending_onPanelKeyDown b props refs activeElement event :
  lock_pending b (calls_of (onPanelKeyDown props refs activeElement event))
  = b.
Proof.
  unfold onPanelKeyDown.
  destruct (keyCode event =? KeyCode.TAB).
  - destruct (negb (shiftKey event) && _);
      [by destruct (sentinelStartRef_current refs)|].
    destruct (shiftKey event && _);
      [by destruct (sentinelEndRef_current refs)|done].
  - destruct (keyCode event =? KeyCode.ESC); [|done].
    destruct (onClose props); simpl; [|done].
    by destruct (truthy (keyboard props)).
Qed.

Lemma lock_pending_mountEffects b props parentContext refs :
  lock_pending b (calls_of (mountEffects props parentContext refs))
  = lock_pending b (calls_of (lockEffect props)).
Proof.
  rewrite calls_mountEffects, !lock_pending_app.
  by rewrite lock_pending_autoFocusEffect, lock_pending_pushEffect.
Qed.

Lemma lock_pending_updateEffects b prev props parentContext refs :
  lock_pending b (calls_of (updateEffects prev props parentContext refs))
  = if changed [open prev; mask prev] [open props; mask props]
    then lock_pending b (calls_of (lockEffect props)) else b.
Proof.
  rewrite calls_updateEffects, !lock_pending_app.
  assert (Hfocus : ∀ c : bool,
    lock_pending b (if c then calls_of (autoFocusEffect props refs) else [])
    = b).
  { intros []; [apply lock_pending_autoFocusEffect|done]. }
  assert (Hpush : ∀ c : bool,
    lock_pending b
      (if c then calls_of (pushEffect props parentContext) else []) = b).
  { intros []; [apply lock_pending_pushEffect|done]. }
  rewrite Hfocus, Hpush. by destruct (changed [open prev; mask prev] _).
Qed.

Lemma lock_pending_cleanup b locker parentContext :
  lock_pending b (calls_of (cleanup locker parentContext))
  = if locker is Some _ then false else b.
Proof.
  rewrite calls_cleanup, lock_pending_app.
  rewrite (lock_pending_other _ CallThunk) by done.
  by destruct locker.
Qed.

Lemma lock_pending_onVisibleChanged b props nextVisible :
  lock_pending b (calls_of (onVisibleChanged props nextVisible))
  = if nextVisible then b
    else if scrollLocker props is Some _ then false else b.
Proof.
  rewrite calls_onVisibleChanged, lock_pending_app.
  rewrite (lock_pending_other _ (λ f, CallAfterOpenChange f nextVisible))
    by done.
  destruct nextVisible; [done|]. by destruct (scrollLocker props).
Qed.

(** X7: teardown leaves no lock behind.  When the `scrollLocker` prop is the
    same in every render, then after any history of renders, completion
    reports, keys and unmounts that ends with an unmount, the last of the
    instance's `lock()` and `unLock()` calls is not a `lock()`. *)
Theorem teardown_releases_lock (refs : Refs) (locker : option Handle)
    (evs : list Lifecycle) :
  (∀ props ctx, Commit props ctx ∈ evs → scrollLocker props = locker) →
  lock_pending false (calls_of (run refs None (evs ++ [Unmount]))) = false.
Proof.
  set (Inv := λ (inst : option Instance) (b : bool),
    match inst with
    | None => b = false
    | Some i => first_scrollLocker i = locker
                ∧ scrollLocker (committed i) = locker
                ∧ (locker = None → b = false)
    end).
  assert (Hgen : ∀ evs inst b, Inv inst b →
    (∀ props ctx, Commit props ctx ∈ evs → scrollLocker props = locker) →
    lock_pending b (calls_of (run refs inst (evs ++ [Unmount]))) = false).
  { clear evs. induction evs as [|ev evs IH]; intros inst b Hinv Hevs.
    - rewrite app_nil_l, calls_run_cons.
      change (calls_of (run refs (step refs inst Unmount).2 []))
        with (@nil Call).
      rewrite app_nil_r.
      destruct inst as [i|]; cbn [step fst snd]; [|exact Hinv].
      destruct Hinv as (Hfirst & _ & Hnone).
      rewrite lock_pending_cleanup, Hfirst.
      destruct locker; [done|by apply Hnone].
    - rewrite <- app_comm_cons, calls_run_cons, lock_pending_app.
      apply IH; [|intros props ctx Hin; eapply Hevs; by right].
      destruct inst as [i|], ev as [props ctx|nextVisible|active event|];
        unfold Inv in Hinv |- *;
        cbn [step fst snd mounted updated first_scrollLocker committed].
      + destruct Hinv as (Hfirst & Hcommitted & Hnone).
        assert (Hprops : scrollLocker props = locker)
          by (eapply Hevs; left).
        split; [done|]. split; [done|]. intros Hl.
        rewrite lock_pending_updateEffects, lock_pending_lockEffect.
        rewrite Hprops, Hl, (Hnone Hl).
        destruct (changed _ _); [by destruct (_ && _)|done].
      + destruct Hinv as (Hfirst & Hcommitted & Hnone).
        split; [done|]. split; [done|]. intros Hl.
        rewrite lock_pending_onVisibleChanged, Hcommitted, Hl, (Hnone Hl).
        by destruct nextVisible.
      + destruct Hinv as (Hfirst & Hcommitted & Hnone).
        split; [done|]. split; [done|]. intros Hl.
        rewrite lock_pending_onPanelKeyDown. by apply Hnone.
      + destruct Hinv as (Hfirst & Hcommitted & Hnone).
        rewrite lock_pending_cleanup, Hfirst.
        destruct locker; [done|by apply Hnone].
      + assert (Hprops : scrollLocker props = locker)
          by (eapply Hevs; left).
        split; [done|]. split; [done|]. intros Hl.
        rewrite lock_pending_mountEffects, lock_pending_lockEffect.
        rewrite Hprops, Hl, Hinv. by destruct (_ && _).
      + exact Hinv.
      + exact Hinv.
      + exact Hinv. }
  intros Hevs. by apply Hgen.
Qed.

(** Opened with a mask, torn down while open. *)
Lemma teardown_releases_lock_witness :
  let refs := refs_of 0%nat 1%nat 2%nat in
  let masked :=
    with_open_mask (Some true) (Some true)
      (with_collaborators None None None (Some 7%nat) bare) in
  run refs None ([Commit masked None] ++ [Unmount])
    = Returned [CallLock 7%nat; CallUnLock 7%nat]
  ∧ lock_pending false
      (calls_of (run refs None ([Commit masked None] ++ [Unmount]))) = false.
Proof.
  intros refs masked. split; [reflexivity|].
  apply (teardown_releases_lock refs (Some 7%nat) [Commit masked None]).
  intros props ctx Hin. apply list_elem_of_singleton in Hin.
  by injection Hin as -> ->.
Defined.

Lemma after_keeps_first refs (i : Instance) evs :
  Unmount ∉ evs →
  ∃ i', after refs (Some i) evs = Some i'
        ∧ first_scrollLocker i' = first_scrollLocker i
        ∧ first_parentContext i' = first_parentContext i.
Proof.
  revert i. induction evs as [|ev evs IH]; intros i Hno.
  - by exists i.
  - apply not_elem_of_cons in Hno as [Hev Hno].
    destruct ev as [props ctx|nextVisible|active event|]; [| | |done].
    + destruct (IH (updated i props) Hno) as (i' & Hafter & Hl & Hc).
      by exists i'.
    + destruct (IH i Hno) as (i' & Hafter & Hl & Hc). by exists i'.
    + destruct (IH i Hno) as (i' & Hafter & Hl & Hc). by exists i'.
Qed.

(** X8: the teardown acts on what the first render was given.  Whatever
    renders, completion reports and keys follow the mount, the unmount calls
    `unLock()` on the `scrollLocker` of the first render and `pull()` on the
    context of the first render, not on those of the latest render. *)
Theorem unmount_uses_first_render (refs : Refs) (props : DrawerPopupProps)
    (parentContext : option DrawerContextProps) (evs : list Lifecycle) :
  Unmount ∉ evs →
  calls_of (run refs None (Commit props parentContext :: evs ++ [Unmount]))
  = calls_of (run refs None (Commit props parentContext :: evs))
    ++ option_list (CallUnLock <$> scrollLocker props)
    ++ option_list (CallThunk <$> (parentContext ≫= Context.pull)).
Proof.
  intros Hno.
  rewrite app_comm_cons, calls_run_app. f_equal.
  destruct (after_keeps_first refs (mounted props parentContext) evs Hno)
    as (i' & Hafter & Hl & Hc).
  change (after refs None (Commit props parentContext :: evs))
    with (after refs (Some (mounted props parentContext)) evs).
  rewrite Hafter, calls_run_cons. simpl.
  by rewrite app_nil_r, calls_cleanup, Hl, Hc.
Qed.

(** The scroll locker is replaced while the overlay is open: the teardown
    releases locker 7 and leaves locker 8 locked. *)
Lemma unmount_uses_first_render_witness :
  let refs := refs_of 0%nat 1%nat 2%nat in
  let props (locker : Handle) (m : bool) :=
    with_open_mask (Some true) (Some m)
      (with_collaborators None None None (Some locker) bare) in
  calls_of (run refs None
              (Commit (props 7%nat true) None
               :: [ Commit (props 8%nat false) None;
                    Commit (props 8%nat true) None ] ++ [Unmount]))
  = [CallLock 7%nat; CallLock 8%nat; CallUnLock 7%nat].
Proof.
  intros refs props.
  rewrite (unmount_uses_first_render refs (props 7%nat true) None
             [ Commit (props 8%nat false) None;
               Commit (props 8%nat true) None ]).
  - reflexivity.
  - intros Hin. repeat (apply elem_of_cons in Hin as [Hin|Hin]; [done|]).
    by apply elem_of_nil in Hin.
Defined.



(* ================================================================== *)
(** * Keys and focus *)

(** X10: a key event makes at most one call.  It is either a `focus()` with
    scroll suppressed, on a Tab and on the node of one of the two sentinels,
    or `onClose(event)` with the event itself, on an ESC with `keyboard`
    truthy; no other key does anything, and nothing else is ever called. *)
Theorem key_event_calls (props : DrawerPopupProps) (refs : Refs)
    (activeElement : RefValue) (event : KeyboardEvent) :
  let cs := calls_of (onPanelKeyDown props refs activeElement event) in
  (length cs ≤ 1)%nat
  ∧ ∀ c, c ∈ cs →
      (keyCode event = KeyCode.TAB
       ∧ ∃ el, c = CallFocus el true
               ∧ (sentinelStartRef_current refs = RefNode el
                  ∨ sentinelEndRef_current refs = RefNode el))
      ∨ (keyCode event = KeyCode.ESC
         ∧ truthy (keyboard props) = true
         ∧ ∃ f, onClose props = Some f ∧ c = CallOnClose f event).
Proof.
  cbv zeta. unfold onPanelKeyDown.
  destruct (Z.eqb_spec (keyCode event) KeyCode.TAB) as [Htab|_].
  - destruct (negb (shiftKey event) && _).
    { destruct (sentinelStartRef_current refs) as [| |el] eqn:Href; simpl;
        (split; [lia|]); intros c Hc; try by apply elem_of_nil in Hc.
      apply list_elem_of_singleton in Hc as ->. left. eauto. }
    destruct (shiftKey event && _); [|split; [simpl; lia|]].
    + destruct (sentinelEndRef_current refs) as [| |el] eqn:Href; simpl;
        (split; [lia|]); intros c Hc; try by apply elem_of_nil in Hc.
      apply list_elem_of_singleton in Hc as ->. left. eauto.
    + intros c Hc. by apply elem_of_nil in Hc.
  - destruct (Z.eqb_spec (keyCode event) KeyCode.ESC) as [Hesc|_].
    + destruct (onClose props) as [f|]; simpl.
      * destruct (truthy (keyboard props)) eqn:Hkb; simpl;
          (split; [lia|]); intros c Hc; [|by apply elem_of_nil in Hc].
        apply list_elem_of_singleton in Hc as ->. right. eauto.
      * split; [lia|]. intros c Hc. by apply elem_of_nil in Hc.
    + split; [simpl; lia|]. intros c Hc. by apply elem_of_nil in Hc.
Qed.

Lemma only_pushEffect_none kind props parentContext :
  (∀ t, kind (CallThunk t) = false) →
  only kind (calls_of (pushEffect props parentContext)) = [].
Proof.
  intros Hk. rewrite calls_pushEffect.
  by rewrite (only_option_list _ _ _ false).
Qed.

Lemma only_lockEffect_none kind props :
  (∀ l, kind (CallLock l) = false) →
  only kind (calls_of (lockEffect props)) = [].
Proof.
  intros Hk. rewrite calls_lockEffect. destruct (_ && _); [|done].
  by rewrite (only_option_list _ _ _ false).
Qed.

Lemma focus_autoFocusEffect props root s e :
  only is_focus (calls_of (autoFocusEffect props (refs_of root s e)))
  = if truthy (open props) && truthy (autoFocus props)
    then [CallFocus root true] else [].
Proof. unfold autoFocusEffect. by destruct (_ && _). Qed.

(** X11: auto focus.  The first render of an overlay that is open with
    `autoFocus` focuses the root element, scroll suppressed; a later render
    does so only if `open` or `autoFocus` changed and both are now truthy.
    A render that changes neither never moves focus, and no render moves
    focus anywhere else. *)
Theorem autoFocus_calls (root s e : Element)
    (prev props : DrawerPopupProps)
    (parentContext : option DrawerContextProps) :
  let refs := refs_of root s e in
  let wanted := truthy (open props) && truthy (autoFocus props) in
  only is_focus (calls_of (mountEffects props parentContext refs))
    = (if wanted then [CallFocus root true] else [])
  ∧ only is_focus (calls_of (updateEffects prev props parentContext refs))
    = (if changed [open prev; autoFocus prev] [open props; autoFocus props]
          && wanted
       then [CallFocus root true] else [])
  ∧ only is_focus (calls_of (updateEffects props props parentContext refs))
    = [].
Proof.
  intros refs wanted. subst refs wanted. split; [|split].
  - rewrite calls_mountEffects, !only_app.
    rewrite only_pushEffect_none, only_lockEffect_none by done.
    by rewrite app_nil_r, focus_autoFocusEffect.
  - rewrite calls_updateEffects, !only_app.
    assert (Hpush : ∀ c : bool,
      only is_focus
        (if c then calls_of (pushEffect props parentContext) else []) = []).
    { intros []; [by apply only_pushEffect_none|done]. }
    assert (Hlock : ∀ c : bool,
      only is_focus (if c then calls_of (lockEffect props) else []) = []).
    { intros []; [by apply only_lockEffect_none|done]. }
    rewrite Hpush, Hlock, !app_nil_r.
    destruct (changed _ _); [|done].
    apply focus_autoFocusEffect.
  - by rewrite updateEffects_same_props.
Qed.

(* ================================================================== *)
(** * The wrapper style: edges *)

(** X12: a `placement` left out is offset as `right`; and opposite
    placements mirror each other: the negated distance at the top is the
    distance at the bottom, and likewise for left and right. *)
Theorem wrapperStyle_mirror {runtime : Runtime} (pushed : bool)
    (distance : NumberOrString) (d : Z) :
  wrapperStyle pushed distance None
    = wrapperStyle pushed distance (Some Placement.right)
  ∧ wrapperStyle pushed (Num (- d)) (Some Placement.top)
    = wrapperStyle pushed (Num d) (Some Placement.bottom)
  ∧ wrapperStyle pushed (Num (- d)) (Some Placement.bottom)
    = wrapperStyle pushed (Num d) (Some Placement.top)
  ∧ wrapperStyle pushed (Num (- d)) (Some Placement.left)
    = wrapperStyle pushed (Num d) (Some Placement.right)
  ∧ wrapperStyle pushed (Num (- d)) (Some Placement.right)
    = wrapperStyle pushed (Num d) (Some Placement.left).
Proof.
  assert (Ht : truthy_value (Num (- d)) = truthy_value (Num d)).
  { simpl. f_equal. destruct (Z.eqb_spec (- d) 0), (Z.eqb_spec d 0);
      try done; lia. }
  unfold wrapperStyle. rewrite Ht.
  destruct (pushed && truthy_value (Num d)); simpl;
    by rewrite ?Z.opp_involutive.
Qed.

(** X13: a `transform` in the caller's `contentWrapperStyle` replaces the
    push offset: whatever the pushed state, the distance and the placement,
    the wrapper then carries the caller's transform. *)
Theorem caller_transform_wins {runtime : Runtime}
    (props : DrawerPopupProps) (caller : CSSProperties)
    (v : NumberOrString) (pushed : bool)
    (parentContext : option DrawerContextProps) :
  contentWrapperStyle props = Some caller →
  caller !! "transform" = Some v →
  panelWrapperStyle props pushed parentContext !! "transform" = Some v.
Proof.
  intros Hprops Hcaller. unfold panelWrapperStyle.
  rewrite spread_lookup_first by (by apply zIndexStyle_only_zIndex).
  apply spread_lookup_last. by rewrite Hprops.
Qed.

(** A pushed overlay whose caller sets `transform: none`. *)
Lemma caller_transform_wins_witness :
  let props :=
    {| prefixCls := "rc-drawer"; open := Some true; inline := None;
       push := PushUndefined; forceRender := None; autoFocus := None;
       keyboard := None; scrollLocker := None; rootClassName := None;
       rootStyle := None; zIndex := Some 10;
       placement := Some Placement.left; className := None; style := None;
       children := Nothing; width := None; height := None;
       contentWrapperStyle := Some {[ "transform" := Str "none" ]};
       mask := None; maskClosable := None; maskClassName := None;
       maskStyle := None; motion := None; maskMotion := None;
       afterOpenChange := None; onClose := None |} in
  panelWrapperStyle (runtime := sample_runtime) props true None
    !! "transform" = Some (Str "none").
Proof.
  intros props.
  apply (caller_transform_wins (runtime := sample_runtime) props
           {[ "transform" := Str "none" ]}); reflexivity.
Defined.

(** X14: a distance given as a string.  A non-empty string is written into
    the transform as it stands for `top` and `left`, and through the
    runtime's numeric negation for `bottom` and `right`; the empty string is
    falsy and gives no offset. *)
Theorem string_distance_offset {runtime : Runtime} (s : string) :
  s ≠ "" →
  wrapperStyle true (Str s) (Some Placement.top)
    = {[ "transform" := Str ("translateY(" +:+ s +:+ "px)") ]}
  ∧ wrapperStyle true (Str s) (Some Placement.left)
    = {[ "transform" := Str ("translateX(" +:+ s +:+ "px)") ]}
  ∧ wrapperStyle true (Str s) (Some Placement.bottom)
    = {[ "transform" := Str ("translateY(" +:+ negated s +:+ "px)") ]}
  ∧ wrapperStyle true (Str s) (Some Placement.right)
    = {[ "transform" := Str ("translateX(" +:+ negated s +:+ "px)") ]}
  ∧ ∀ pushed placement, wrapperStyle pushed (Str "") placement = ∅.
Proof.
  intros Hs.
  assert (Ht : truthy_value (Str s) = true).
  { simpl. destruct (String.eqb_spec s ""); done. }
  unfold wrapperStyle. rewrite Ht. simpl.
  repeat split; try reflexivity.
  intros pushed placement. by rewrite andb_false_r.
Qed.

(** The distances "40" and "wide". *)
Lemma string_distance_offset_witness :
  wrapperStyle (runtime := sample_runtime) true (Str "40")
    (Some Placement.right) = {[ "transform" := Str "translateX(-40px)" ]}
  ∧ wrapperStyle (runtime := sample_runtime) true (Str "wide")
      (Some Placement.top) = {[ "transform" := Str "translateY(widepx)" ]}.
Proof.
  destruct (string_distance_offset (runtime := sample_runtime) "40")
    as (_ & _ & _ & Hright & _); [discriminate|].
  destruct (string_distance_offset (runtime := sample_runtime) "wide")
    as (Htop & _); [discriminate|].
  split; [exact Hright|exact Htop].
Defined.

(* ================================================================== *)
(** * Handlers in the document *)

(** X15: the handlers the overlay attaches.  The only `onClick` it puts in
    the document is the caller's `onClose`, on the mask, and only when
    `maskClosable` is truthy (and the mask is rendered); the only
    `onKeyDown` is its key handler, on the root.  Every other handler in the
    document belongs to the caller's `children`. *)
Theorem document_handlers {runtime : Runtime} (engine : Engine)
    (self : InstanceId) (props : DrawerPopupProps) (pushed : bool)
    (parentContext : option DrawerContextProps) :
  let document := commit engine (render self props pushed parentContext) in
  let inside (handlers : DomNode → list EventHandler) :=
    if engine "panel" (panelMotionProps props) is Some _
    then flat_map handlers (commit engine (children props)) else [] in
  flat_map dom_clicks document
    = (if truthy (mask props) && truthy (maskClosable props)
          && bool_decide (is_Some (engine "mask" (maskMotionProps props)))
       then option_list (CallerOnClose <$> onClose props) else [])
      ++ inside dom_clicks
  ∧ flat_map dom_keys document = OnPanelKeyDown :: inside dom_keys.
Proof.
  cbv zeta. unfold render, maskNode, panelNode. simpl.
  destruct (engine "panel" (panelMotionProps props)) as [parg|];
    destruct (truthy (mask props)); simpl;
    try destruct (engine "mask" (maskMotionProps props)) as [marg|];
    simpl; rewrite ?andb_false_r, ?andb_true_r, ?app_nil_r; simpl;
    try (destruct (truthy (maskClosable props)); simpl);
    rewrite ?app_nil_r; done.
Qed.

(* ================================================================== *)
(** * Histories: completion reports and pushes *)

Lemma only_onPanelKeyDown_none kind props refs activeElement event :
  (∀ el b, kind (CallFocus el b) = false) →
  (∀ f ev, kind (CallOnClose f ev) = false) →
  only kind (calls_of (onPanelKeyDown props refs activeElement event)) = [].
Proof.
  intros Hf Hc. unfold onPanelKeyDown, only.
  destruct (keyCode event =? KeyCode.TAB).
  - destruct (negb (shiftKey event) && _).
    { destruct (sentinelStartRef_current refs); simpl; try done.
      rewrite filter_cons_False; [done|]. by rewrite Hf. }
    destruct (shiftKey event && _); [|done].
    destruct (sentinelEndRef_current refs); simpl; try done.
    rewrite filter_cons_False; [done|]. by rewrite Hf.
  - destruct (keyCode event =? KeyCode.ESC); [|done].
    destruct (onClose props); simpl; [|done].
    destruct (truthy (keyboard props)); simpl; [|done].
    rewrite filter_cons_False; [done|]. by rewrite Hc.
Qed.

Lemma only_updateEffects_none kind prev props parentContext refs :
  (∀ el b, kind (CallFocus el b) = false) →
  (∀ t, kind (CallThunk t) = false) →
  (∀ l, kind (CallLock l) = false) →
  only kind (calls_of (updateEffects prev props parentContext refs)) = [].
Proof.
  intros Hf Ht Hl. rewrite calls_updateEffects, !only_app.
  destruct (changed [open prev; autoFocus prev] _),
    (changed [open prev] _), (changed [open prev; mask prev] _);
    by rewrite ?only_autoFocusEffect, ?only_pushEffect_none,
         ?only_lockEffect_none.
Qed.

Lemma only_mountEffects_none kind props parentContext refs :
  (∀ el b, kind (CallFocus el b) = false) →
  (∀ t, kind (CallThunk t) = false) →
  (∀ l, kind (CallLock l) = false) →
  only kind (calls_of (mountEffects props parentContext refs)) = [].
Proof.
  intros Hf Ht Hl. rewrite calls_mountEffects, !only_app.
  by rewrite only_autoFocusEffect, only_pushEffect_none,
       only_lockEffect_none.
Qed.

(** X16: `afterOpenChange` hears every completion report of the engine and
    nothing else.  Over a mounted life in which each render supplies the
    callback [f], its calls are, in order, exactly the values the engine
    reported; renders and keys never call it. *)
Theorem afterOpenChange_follows_reports (refs : Refs) (f : Handle)
    (props : DrawerPopupProps) (parentContext : option DrawerContextProps)
    (evs : list Lifecycle) :
  afterOpenChange props = Some f →
  (∀ p ctx, Commit p ctx ∈ evs → afterOpenChange p = Some f) →
  Unmount ∉ evs →
  only is_afterOpenChange
    (calls_of (run refs None (Commit props parentContext :: evs)))
  = CallAfterOpenChange f <$> reports evs.
Proof.
  intros Hprops Hevs Hno.
  rewrite calls_run_cons, only_app. cbn [step fst snd].
  rewrite only_mountEffects_none by done. simpl.
  assert (Hcommitted : afterOpenChange
            (committed (mounted props parentContext)) = Some f) by done.
  revert Hcommitted Hevs Hno.
  generalize (mounted props parentContext).
  induction evs as [|ev evs IH]; intros i Hi Hevs Hno; [done|].
  apply not_elem_of_cons in Hno as [Hev Hno].
  assert (Hrest : ∀ p ctx, Commit p ctx ∈ evs → afterOpenChange p = Some f).
  { intros p ctx Hin. eapply Hevs. by right. }
  rewrite calls_run_cons, only_app.
  destruct ev as [p ctx|nextVisible|active event|]; [| | |done];
    cbn [step fst snd].
  - rewrite only_updateEffects_none by done. simpl.
    apply IH; [|done..]. simpl. eapply Hevs. by left.
  - rewrite calls_onVisibleChanged, only_app, Hi. simpl.
    assert (Hunlock : only is_afterOpenChange
              (if nextVisible then []
               else option_list (CallUnLock <$> scrollLocker (committed i)))
            = []).
    { destruct nextVisible; [done|].
      by rewrite (only_option_list _ _ _ false). }
    rewrite Hunlock. unfold reports. simpl.
    rewrite (IH i) by done. reflexivity.
  - rewrite only_onPanelKeyDown_none by done. simpl. by apply IH.
Qed.

(** Opened, the enter reported, closed, the leave reported. *)
Lemma afterOpenChange_follows_reports_witness :
  let refs := refs_of 0%nat 1%nat 2%nat in
  let props (o : bool) :=
    with_open_mask (Some o) (Some true)
      (with_collaborators None None (Some 4%nat) (Some 7%nat) bare) in
  only is_afterOpenChange
    (calls_of (run refs None
                 (Commit (props true) None
                  :: [ VisibleChanged true; Commit (props false) None;
                       VisibleChanged false ])))
  = [CallAfterOpenChange 4%nat true; CallAfterOpenChange 4%nat false].
Proof.
  intros refs props.
  rewrite (afterOpenChange_follows_reports refs 4%nat (props true) None).
  - reflexivity.
  - reflexivity.
  - intros p ctx Hin.
    repeat (apply elem_of_cons in Hin as [Hin|Hin];
            [by (injection Hin as -> ->) || done|]).
    by apply elem_of_nil in Hin.
  - intros Hin. repeat (apply elem_of_cons in Hin as [Hin|Hin]; [done|]).
    by apply elem_of_nil in Hin.
Defined.

Lemma last_push_app b cs cs' :
  last_push b (cs ++ cs') = last_push (last_push b cs) cs'.
Proof.
  revert b. induction cs as [|c cs IH]; intros b; [done|].
  destruct c as [| | | | |[]]; simpl; apply IH.
Qed.

Lemma push_discipline_app b cs cs' :
  push_discipline b (cs ++ cs')
  = push_discipline b cs && push_discipline (last_push b cs) cs'.
Proof.
  revert b. induction cs as [|c cs IH]; intros b; [done|].
  destruct c as [| | | | |[owner []|]]; simpl; rewrite ?IH; try done.
  by rewrite andb_assoc.
Qed.

Lemma push_discipline_thunks b cs :
  push_discipline b cs = push_discipline b (only is_thunk cs)
  ∧ last_push b cs = last_push b (only is_thunk cs).
Proof.
  unfold only. revert b. induction cs as [|c cs IH]; intros b; [done|].
  destruct c as [| | | | |[owner []|]];
    try (rewrite filter_cons_False by (simpl; discriminate); simpl;
         apply IH).
  - rewrite filter_cons_True by done. simpl.
    by destruct (IH true) as [-> ->].
  - rewrite filter_cons_True by done. simpl.
    by destruct (IH false) as [-> ->].
  - rewrite filter_cons_True by done. simpl. apply IH.
Qed.

(** X17: an overlay never pushes its parent twice in a row.  Whatever
    renders, reports, keys, unmounts and remounts it goes through under the
    contexts its parent provides, a `push()` is always followed by a
    `pull()` before the next `push()`.  (A `pull()` may be repeated.) *)
Theorem push_never_repeated (refs : Refs) (parent : InstanceId)
    (evs : list Lifecycle) :
  (∀ props ctx, Commit props ctx ∈ evs →
     ∃ d, ctx = Some (mergedContext parent d)) →
  push_discipline false (calls_of (run refs None evs)) = true.
Proof.
  set (Inv := λ (inst : option Instance) (b : bool),
    match inst with
    | None => b = false
    | Some i => (∃ d, first_parentContext i = Some (mergedContext parent d))
                ∧ (b = true → truthy (open (committed i)) = true)
    end).
  assert (Hgen : ∀ evs inst b, Inv inst b →
    (∀ props ctx, Commit props ctx ∈ evs →
       ∃ d, ctx = Some (mergedContext parent d)) →
    push_discipline b (calls_of (run refs inst evs)) = true).
  { clear evs. induction evs as [|ev evs IH]; intros inst b Hinv Hevs;
      [done|].
    assert (Hrest : ∀ props ctx, Commit props ctx ∈ evs →
              ∃ d, ctx = Some (mergedContext parent d)).
    { intros props ctx Hin. eapply Hevs. by right. }
    rewrite calls_run_cons, push_discipline_app.
    destruct (push_discipline_thunks b (calls_of (step refs inst ev).1))
      as [-> ->].
    destruct inst as [i|], ev as [props ctx|nextVisible|active event|];
      unfold Inv in Hinv; cbn [step fst snd].
    - destruct (Hevs props ctx) as [d ->]; [by left|].
      destruct Hinv as [Hfirst Hb].
      rewrite thunks_updateEffects, calls_pushEffect. simpl.
      destruct (changed [open (committed i)] [open props]) eqn:Hch.
      + destruct (truthy (open props)) eqn:Hopen; simpl.
        * destruct b; simpl; [|apply IH; [by split|done]].
          exfalso. specialize (Hb eq_refl).
          unfold changed in Hch. apply bool_decide_eq_true_1 in Hch.
          apply Hch. f_equal.
          destruct (open (committed i)) as [[]|], (open props) as [[]|];
            done.
        * apply IH; [|done]. split; [done|]. done.
      + simpl. apply IH; [|done]. split; [done|]. intros Hb'.
        unfold changed in Hch. apply bool_decide_eq_false_1 in Hch.
        apply dec_stable in Hch. injection Hch as Heq.
        simpl. rewrite <- Heq. by apply Hb.
    - rewrite calls_onVisibleChanged, only_app.
      rewrite (only_option_list _ _ _ false) by done.
      assert (Hunlock : only is_thunk
                (if nextVisible then []
                 else option_list
                        (CallUnLock <$> scrollLocker (committed i))) = []).
      { destruct nextVisible; [done|].
        by rewrite (only_option_list _ _ _ false). }
      rewrite Hunlock. simpl. by apply IH.
    - rewrite only_onPanelKeyDown_none by done. simpl. by apply IH.
    - destruct Hinv as [[d Hfirst] Hb].
      rewrite thunks_cleanup, Hfirst. simpl. by apply IH.
    - destruct (Hevs props ctx) as [d ->]; [by left|].
      rewrite thunks_mountEffects, calls_pushEffect, Hinv. simpl.
      destruct (truthy (open props)) eqn:Hopen; simpl;
        (apply IH; [|done]); (split; [by exists d|done]).
    - simpl. by apply IH.
    - simpl. by apply IH.
    - simpl. by apply IH. }
  intros Hevs. by apply Hgen.
Qed.

(** Mounted open, re-rendered open, closed twice over, reopened, torn
    down, mounted again. *)
Lemma push_never_repeated_witness :
  let refs := refs_of 0%nat 1%nat 2%nat in
  let ctx := Some (mergedContext 5%nat (Num 180)) in
  let props (o : option bool) := with_open_mask o None bare in
  let evs := [ Commit (props (Some true)) ctx; Commit (props (Some true)) ctx;
               Commit (props (Some false)) ctx; Commit (props None) ctx;
               Commit (props (Some true)) ctx; Unmount;
               Commit (props (Some true)) ctx ] in
  push_discipline false (calls_of (run refs None evs)) = true
  ∧ calls_of (run refs None evs)
    = [ CallThunk (SetPushed 5%nat true); CallThunk (SetPushed 5%nat false);
        CallThunk (SetPushed 5%nat false); CallThunk (SetPushed 5%nat true);
        CallThunk (SetPushed 5%nat false); CallThunk (SetPushed 5%nat true) ].
Proof.
  intros refs ctx props evs. split; [|reflexivity].
  apply (push_never_repeated refs 5%nat). intros p c Hin.
  exists (Num 180). unfold evs in Hin.
  repeat (apply elem_of_cons in Hin as [Hin|Hin];
          [by (injection Hin as -> ->) || done|]).
  by apply elem_of_nil in Hin.
Defined.
